(** * if-reliability: the failover tool, embedded and verified

    A shallow embedding of the Go program (the version with the route
    manager, and [connectToWiFi] of the [iwconfig] version of [main.go] in
    [Module MainGo]) and the proofs of the properties its specification
    states.

    The program talks to the operating system only by running commands
    ([exec.Command(...).CombinedOutput()]), sleeping, logging and exiting.
    A [World] holds the answers the operating system is going to give to the
    commands, in the order they are run, and the trace of what the program
    did so far. Programs are state-passing functions over worlds. *)

From Stdlib Require Import ZArith List String Ascii Bool Lia DecimalString.
Import ListNotations.

Open Scope list_scope.
Open Scope string_scope.
Open Scope Z_scope.

(** ** The Go runtime and library functions left abstract *)

(** Width of Go's [int]: 32 bits on 386 and arm, 64 bits on amd64 and arm64
    (the build script targets all four). *)
Inductive IntSize := Int32 | Int64.

Definition int_bits (sz : IntSize) : Z :=
  match sz with Int32 => 32 | Int64 => 64 end.

(** Library functions of the Go standard library that the program calls and
    that are not embedded here: floating point ([strconv.ParseFloat] followed
    by the conversion [int(...)]), the IPv6 half of [net.ParseIP] and of
    [IP.String], and [strings.TrimSpace]. *)
Class GoRuntime := {
  int_size : IntSize;
  (* [strconv.ParseFloat(s, 32)] then [int(responseTime)]; [None] when
     ParseFloat returns an error. *)
  ParseFloat_int : string -> option Z;
  (* the IPv6 branch of [net.ParseIP]: 16 bytes, or [[]] for nil *)
  parseIPv6 : string -> list Z;
  (* [IP.String] on an address that is neither nil nor IPv4 *)
  IPv6_String : list Z -> string;
  TrimSpace : string -> string
}.

(** ** Strings *)

Definition newline : ascii := "010"%char.
Definition space : ascii := " "%char.

(** [strings.HasPrefix] *)
Fixpoint HasPrefix (s prefix : string) : bool :=
  match prefix with
  | EmptyString => true
  | String p prefix' =>
      match s with
      | EmptyString => false
      | String c s' => Ascii.eqb c p && HasPrefix s' prefix'
      end
  end.

(** [strings.Contains] *)
Fixpoint Contains (s substr : string) : bool :=
  HasPrefix s substr ||
  match s with
  | EmptyString => false
  | String _ s' => Contains s' substr
  end.

(** [strings.TrimPrefix] *)
Definition TrimPrefix (s prefix : string) : string :=
  if HasPrefix s prefix
  then substring (String.length prefix) (String.length s - String.length prefix) s
  else s.

(** [strings.HasSuffix] and [strings.TrimSuffix] *)
Definition HasSuffix (s suffix : string) : bool :=
  (String.length suffix <=? String.length s)%nat &&
  String.eqb (substring (String.length s - String.length suffix)
                        (String.length suffix) s) suffix.

Definition TrimSuffix (s suffix : string) : string :=
  if HasSuffix s suffix
  then substring 0 (String.length s - String.length suffix) s
  else s.

(** [strings.Split(s, sep)] for a separator of one byte, which is what both
    call sites pass ([" "] and ["\n"]). The result has one more element
    than [s] has separators; in particular the empty text gives one token,
    the empty one. *)
Fixpoint Split (s : string) (sep : ascii) : list string :=
  match s with
  | EmptyString => [EmptyString]
  | String c s' =>
      if Ascii.eqb c sep then EmptyString :: Split s' sep
      else
        match Split s' sep with
        | [] => [String c EmptyString]
        | tok :: toks => String c tok :: toks
        end
  end.

(** [%d] on an [int] *)
Definition Itoa (n : Z) : string := NilZero.string_of_int (Z.to_int n).

(** ** Integers *)

Definition max_int (sz : IntSize) : Z := 2 ^ (int_bits sz - 1) - 1.
Definition min_int (sz : IntSize) : Z := - 2 ^ (int_bits sz - 1).

(** Two's complement wrap-around of Go's [int] arithmetic. *)
Definition wrap_int (sz : IntSize) (z : Z) : Z :=
  (z + 2 ^ (int_bits sz - 1)) mod 2 ^ int_bits sz - 2 ^ (int_bits sz - 1).

(** ** The operating system and the program monad *)

Inductive Level := Info | Warn | Error.

(** What the program does to the outside world. *)
Inductive Event :=
| EvLog (lvl : Level) (msg : string)   (* log.Info()/Warn()/Error().Msg(f) *)
| EvSleep                              (* time.Sleep(time.Second) *)
| EvNotify                             (* signal.Notify and the listener goroutine *)
| EvExec (argv : list string).         (* exec.Command(argv...).CombinedOutput() *)

(** The result of [CombinedOutput]: the text the command printed and its
    error, [None] for nil. *)
Record ExecResult := mkExec { output : string; err : option string }.

Record World := mkWorld {
  pending : list ExecResult;   (* the answers to the commands still to run *)
  trace : list Event           (* what the program did so far, oldest first *)
}.

Inductive Outcome (A : Type) :=
| Ret (a : A)              (* the function returned [a] *)
| Exited (code : Z)        (* os.Exit(code) *)
| Panicked (msg : string)  (* a runtime panic *)
| Blocked.                 (* waiting for the answer to a command *)

Arguments Ret {A} a.
Arguments Exited {A} code.
Arguments Panicked {A} msg.
Arguments Blocked {A}.

Definition Prog (A : Type) : Type := World -> Outcome A * World.

Definition ret {A} (a : A) : Prog A := fun w => (Ret a, w).

Definition bind {A B} (m : Prog A) (f : A -> Prog B) : Prog B :=
  fun w =>
    match m w with
    | (Ret a, w') => f a w'
    | (Exited c, w') => (Exited c, w')
    | (Panicked msg, w') => (Panicked msg, w')
    | (Blocked, w') => (Blocked, w')
    end.

Notation "x <- m ;; k" := (bind m (fun x => k))
  (at level 61, m at next level, right associativity).
Notation "m ;; k" := (bind m (fun _ => k))
  (at level 61, right associativity).

Definition emit (e : Event) : Prog unit :=
  fun w => (Ret tt, mkWorld (pending w) (trace w ++ [e])%list).

Definition log (lvl : Level) (msg : string) : Prog unit := emit (EvLog lvl msg).
Definition Sleep : Prog unit := emit EvSleep.

(** Running a command takes the next answer of the operating system; when
    there is none the program stays blocked in the command. *)
Definition CombinedOutput (argv : list string) : Prog ExecResult :=
  fun w =>
    match pending w with
    | [] => (Blocked, mkWorld [] (trace w ++ [EvExec argv])%list)
    | r :: rest => (Ret r, mkWorld rest (trace w ++ [EvExec argv])%list)
    end.

Definition os_Exit {A} (code : Z) : Prog A := fun w => (Exited code, w).
Definition panic {A} (msg : string) : Prog A := fun w => (Panicked msg, w).

(** A [for { ... }] loop. Every iteration of the loops of this program runs
    at least one command, so a loop started with one more unit of fuel than
    there are pending answers never runs out of fuel: it returns, exits,
    panics or blocks in a command first (lemmas [pingInterface_loop_fuel],
    [connectToWiFi_poll_fuel] and [MainGo_poll_fuel]). *)
Definition for_ever {A} (body : nat -> Prog A) : Prog A :=
  fun w => body (S (List.length (pending w))) w.

(** ** The [net] package, IPv4 part (Go 1.17 and later) *)

(** An IP address or mask is a byte slice; the nil slice is [[]]. *)
Definition IP := list Z.

Definition v4InV6Prefix : IP := [0; 0; 0; 0; 0; 0; 0; 0; 0; 0; 255; 255].

Definition is_digit (c : ascii) : bool :=
  (48 <=? nat_of_ascii c)%nat && (nat_of_ascii c <=? 57)%nat.

Definition is_dot (c : option ascii) : bool :=
  match c with Some c => Ascii.eqb c "." | None => false end.

(** [fields[pos] = v] on the 4-byte array. *)
Fixpoint set_field (fields : list Z) (pos : nat) (v : Z) : list Z :=
  match fields, pos with
  | [], _ => []
  | _ :: fs, O => v :: fs
  | f :: fs, S pos' => f :: set_field fs pos' v
  end.

(** The loop of [netip.parseIPv4] over the bytes of the text. [prev] is
    [s[i-1]], [None] when [i == 0]; the rest of the text being empty is
    [i == len(s)-1]. [None] is a parse error. *)
Fixpoint parseIPv4_loop (s : string) (prev : option ascii)
         (fields : list Z) (val : Z) (pos : nat) (digLen : Z) : option (list Z) :=
  match s with
  | EmptyString =>
      if (pos <? 3)%nat then None
      else Some (set_field fields 3 (val mod 256))
  | String c s' =>
      if is_digit c then
        if (digLen =? 1) && (val =? 0) then None
        else
          let val := val * 10 + Z.of_nat (nat_of_ascii c) - 48 in
          let digLen := digLen + 1 in
          if val >? 255 then None
          else parseIPv4_loop s' (Some c) fields val pos digLen
      else if Ascii.eqb c "." then
        if match prev with None => true | Some _ => false end
           || match s' with EmptyString => true | _ => false end
           || is_dot prev
        then None
        else if (pos =? 3)%nat then None
        else parseIPv4_loop s' (Some c) (set_field fields pos (val mod 256)) 0 (S pos) 0
      else None
  end.

Definition parseIPv4 (s : string) : option (list Z) :=
  parseIPv4_loop s None [0; 0; 0; 0] 0 0 0.

(** [netip.ParseAddr] picks the parser by the first of ['.'], [':'] and
    ['%'] in the text. *)
Inductive AddrKind := KindV4 | KindV6 | KindNone.

Fixpoint addr_kind (s : string) : AddrKind :=
  match s with
  | EmptyString => KindNone
  | String c s' =>
      if Ascii.eqb c "." then KindV4
      else if Ascii.eqb c ":" then KindV6
      else if Ascii.eqb c "%" then KindNone
      else addr_kind s'
  end.

(** [net.CIDRMask]: the loop that fills the [l] bytes of the mask. *)
Fixpoint CIDRMask_fill (l : nat) (n : Z) : list Z :=
  match l with
  | O => []
  | S l' =>
      if n >=? 8 then 255 :: CIDRMask_fill l' (n - 8)
      else Z.lxor 255 (Z.shiftr 255 n) :: CIDRMask_fill l' 0
  end.

Definition CIDRMask (ones bits : Z) : IP :=
  if negb (bits =? 32) && negb (bits =? 128) then []
  else if (ones <? 0) || (ones >? bits) then []
  else CIDRMask_fill (Z.to_nat (bits / 8)) ones.

Definition allFF (b : list Z) : bool := forallb (Z.eqb 255) b.

Fixpoint bytes_eqb (a b : list Z) : bool :=
  match a, b with
  | [], [] => true
  | x :: a', y :: b' => (x =? y) && bytes_eqb a' b'
  | _, _ => false
  end.

Fixpoint and_bytes (ip mask : list Z) : list Z :=
  match ip, mask with
  | x :: ip', m :: mask' => Z.land x m :: and_bytes ip' mask'
  | _, _ => []
  end.

(** [IP.Mask] *)
Definition Mask (ip mask : IP) : IP :=
  let mask :=
    if (List.length mask =? 16)%nat && (List.length ip =? 4)%nat
       && allFF (firstn 12 mask)
    then skipn 12 mask else mask in
  let ip :=
    if (List.length mask =? 4)%nat && (List.length ip =? 16)%nat
       && bytes_eqb (firstn 12 ip) v4InV6Prefix
    then skipn 12 ip else ip in
  if (List.length ip =? List.length mask)%nat then and_bytes ip mask else [].

(** [IP.To4] *)
Definition To4 (ip : IP) : IP :=
  if (List.length ip =? 4)%nat then ip
  else if (List.length ip =? 16)%nat
          && forallb (Z.eqb 0) (firstn 10 ip)
          && bytes_eqb (firstn 2 (skipn 10 ip)) [255; 255]
       then skipn 12 ip
       else [].

Definition dotted (a b c d : Z) : string :=
  Itoa a ++ "." ++ Itoa b ++ "." ++ Itoa c ++ "." ++ Itoa d.

Section Net.
Context {RT : GoRuntime}.

(** [net.ParseIP]: the 16-byte form of the address, nil when the text is
    not an address. *)
Definition ParseIP (s : string) : IP :=
  match addr_kind s with
  | KindV4 =>
      match parseIPv4 s with
      | Some fields => (v4InV6Prefix ++ fields)%list
      | None => []
      end
  | KindV6 => parseIPv6 s
  | KindNone => []
  end.

(** [IP.String], which [%s] prints. *)
Definition IP_String (ip : IP) : string :=
  match ip with
  | [] => "<nil>"
  | _ =>
      match To4 ip with
      | [a; b; c; d] => dotted a b c d
      | _ => IPv6_String ip
      end
  end.
End Net.

(** ** Command-line flags (pflag) *)

Inductive FlagValue := StringFlag (s : string) | IntFlag (n : Z).

Definition FlagSet := list (string * FlagValue).

Fixpoint lookup_flag (fs : FlagSet) (name : string) : option FlagValue :=
  match fs with
  | [] => None
  | (n, v) :: fs' => if String.eqb n name then Some v else lookup_flag fs' name
  end.

(** [cmd.Flags().GetString(name)]: the value and the error. Asking for a
    flag of another type, or for one that is not defined, is an error and
    gives the empty string. *)
Definition GetString (fs : FlagSet) (name : string) : string * option string :=
  match lookup_flag fs name with
  | Some (StringFlag s) => (s, None)
  | Some (IntFlag _) =>
      (EmptyString, Some "trying to get string value of flag of type int")
  | None => (EmptyString, Some ("flag accessed but not defined: " ++ name))
  end.

(** The command line: the four required flags, and [--retry] when given. *)
Record Args := mkArgs {
  arg_wifi_if : string;
  arg_wifi_ssid : string;
  arg_wifi_password : string;
  arg_endpoint : string;
  arg_retry : option Z
}.

(** The flag set that [init] declares, after the command line is parsed:
    [retry] is an int flag with default 5. *)
Definition flags_of (a : Args) : FlagSet :=
  [ ("wifi-if", StringFlag (arg_wifi_if a));
    ("wifi-ssid", StringFlag (arg_wifi_ssid a));
    ("wifi-password", StringFlag (arg_wifi_password a));
    ("endpoint", StringFlag (arg_endpoint a));
    ("retry", IntFlag (match arg_retry a with Some r => r | None => 5 end)) ].

(** ** The program *)

Section Program.
Context {RT : GoRuntime}.

(** *** pingIP *)

(** The inner loop of [pingIP] over the space-separated parts of a line:
    [Some v] when the function returns [v] at a part that starts with
    [time=], [None] when the loop ends without such a part. *)
Fixpoint pingIP_parts (parts : list string) : option Z :=
  match parts with
  | [] => None
  | part :: parts' =>
      if HasPrefix part "time=" then
        let timeStr := TrimPrefix part "time=" in
        let timeStr := TrimSuffix timeStr " ms" in
        match ParseFloat_int timeStr with
        | None => Some (-1)
        | Some responseTime => Some responseTime
        end
      else pingIP_parts parts'
  end.

(** The outer loop over the lines of the output; [-1] when no line gives a
    response time. *)
Fixpoint pingIP_lines (lines : list string) : Z :=
  match lines with
  | [] => -1
  | line :: lines' =>
      if Contains line "time=" then
        match pingIP_parts (Split line space) with
        | Some v => v
        | None => pingIP_lines lines'
        end
      else pingIP_lines lines'
  end.

(** What [pingIP] makes of the answer of the [ping] command. [received]
    is the text that marks one reply: ["1 received"], and
    ["1 packets received"] in the [iwconfig] version. *)
Definition pingIP_result (received : string) (r : ExecResult) : Z :=
  match err r with
  | Some _ => -1
  | None =>
      let outputStr := output r in
      if negb (Contains outputStr received) then -1
      else pingIP_lines (Split outputStr newline)
  end.

Definition pingIP_with (received : string) (ip : string) : Prog Z :=
  r <- CombinedOutput ["ping"; "-c"; "1"; ip] ;;
  ret (pingIP_result received r).

Definition pingIP (ip : string) : Prog Z := pingIP_with "1 received" ip.

(** *** pingInterface *)

Definition failed_to_ping (endpoint : string) (failures retry : Z) : string :=
  "Failed to ping " ++ endpoint ++ ". Attempt " ++ Itoa failures
    ++ " out of " ++ Itoa retry ++ ". Retrying...".

(** The [for] loop of [pingInterface], [failures] being the counter at
    the start of the iteration. *)
Fixpoint pingInterface_loop (fuel : nat) (endpoint : string)
         (retry failures : Z) : Prog Z :=
  match fuel with
  | O => fun w => (Blocked, w)
  | S fuel' =>
      Sleep ;;
      responseTime <- pingIP endpoint ;;
      if negb (responseTime =? -1) then
        pingInterface_loop fuel' endpoint retry 0
      else
        let failures := wrap_int int_size (failures + 1) in
        log Warn (failed_to_ping endpoint failures retry) ;;
        if failures >=? retry then ret (-1)
        else pingInterface_loop fuel' endpoint retry failures
  end.

(** The listener goroutine exits the program when the user interrupts it;
    the runs modelled here are the ones without an interrupt. *)
Definition pingInterface (endpoint : string) (retry : Z) : Prog Z :=
  log Info ("Pinging endpoint " ++ endpoint) ;;
  emit EvNotify ;;
  for_ever (fun fuel => pingInterface_loop fuel endpoint retry 0).

(** *** connectToWiFi *)

Definition index_out_of_range (i : Z) (len : nat) : string :=
  "runtime error: index out of range [" ++ Itoa i ++ "] with length "
    ++ Itoa (Z.of_nat len).

(** [strings.Split(string(output), " ")[2]] *)
Definition third_token (out : string) : Prog string :=
  let tokens := Split out space in
  match nth_error tokens 2 with
  | Some route => ret route
  | None => panic (index_out_of_range 2 (List.length tokens))
  end.

(** The polling loop: query the default route of the interface, take the
    gateway out of the answer and ping it. The value is the pair
    [(gateway, error)] that [connectToWiFi] returns. *)
Fixpoint connectToWiFi_poll (fuel : nat) (ifwifi : string)
  : Prog (string * option string) :=
  match fuel with
  | O => fun w => (Blocked, w)
  | S fuel' =>
      Sleep ;;
      r <- CombinedOutput ["ip"; "route"; "show"; "default"; "dev"; ifwifi] ;;
      match err r with
      | Some e =>
          log Error ("Error getting default route after connecting to WiFi: " ++ e) ;;
          ret (EmptyString, None)
      | None =>
          route <- third_token (output r) ;;
          log Info ("Pinging default router: " ++ route) ;;
          responseTime <- pingIP route ;;
          if negb (responseTime =? -1) then ret (route, None)
          else connectToWiFi_poll fuel' ifwifi
      end
  end.

Definition connectToWiFi (ifwifi bssid password : string)
  : Prog (string * option string) :=
  r <- CombinedOutput ["nmcli"; "d"; "wifi"; "connect"; bssid;
                       "password"; password; "ifname"; ifwifi] ;;
  match err r with
  | Some e => ret (EmptyString, Some e)
  | None =>
      log Info (output r) ;;
      for_ever (fun fuel => connectToWiFi_poll fuel ifwifi)
  end.

(** *** replaceRoute *)

Definition route_replace_argv (cidr router ifname : string) : list string :=
  ["ip"; "route"; "replace"; cidr; "via"; router; "dev"; ifname].

(** The value is the error, [None] for nil. *)
Definition replaceRoute (ipv4 : string) (cidrMask : Z) (ifname router : string)
  : Prog (option string) :=
  let ip := ParseIP ipv4 in
  match ip with
  | [] =>
      log Error ("invalid IP address: " ++ ipv4) ;;
      ret (Some ("invalid IP address: " ++ ipv4))
  | _ =>
      let mask := CIDRMask cidrMask 32 in
      let network := Mask ip mask in
      log Info ("Network address: " ++ IP_String network) ;;
      let cidr := IP_String network ++ "/" ++ Itoa cidrMask in
      log Info ("Replacing default route for network " ++ cidr) ;;
      r <- CombinedOutput (route_replace_argv cidr router ifname) ;;
      match err r with
      | Some e =>
          let msg := "failed to replace route: " ++ e ++ ", output: "
                       ++ TrimSpace (output r) in
          log Error msg ;;
          ret (Some msg)
      | None => ret None
      end
  end.

(** *** rootCmd.Run and main *)

Definition Run (flags : FlagSet) : Prog unit :=
  log Info "Starting Interface Reliability tool..." ;;
  let wifiIF := fst (GetString flags "wifi-if") in
  let wifiSSID := fst (GetString flags "wifi-ssid") in
  let wifiPassword := fst (GetString flags "wifi-password") in
  let endPoint := fst (GetString flags "endpoint") in
  let retry := fst (GetString flags "retry") in
  log Info "Starting Interface Reliability tool with:" ;;
  log Info ("- WiFi interface: " ++ wifiIF) ;;
  log Info ("- WiFi SSID: " ++ wifiSSID) ;;
  log Info ("- WiFi password: " ++ wifiPassword) ;;
  log Info ("- Endpoint to check connectivity: " ++ endPoint) ;;
  log Info ("- Max retry: " ++ retry) ;;
  pingInterface endPoint 5 ;;
  log Error ("Ping toward " ++ endPoint ++ " endpoint failed") ;;
  res <- connectToWiFi wifiIF wifiSSID wifiPassword ;;
  let '(router, err) := res in
  match err with
  | Some e =>
      log Error ("Error connecting to WiFi: " ++ e) ;;
      os_Exit 1
  | None =>
      log Info ("Successfully connected to WiFi with SSID " ++ wifiSSID) ;;
      replaceRoute endPoint 24 wifiIF router ;;
      log Info ("Successfully changed default route to " ++ wifiIF) ;;
      pingInterface endPoint 5 ;;
      ret tt
  end.

Definition main (a : Args) : Prog unit := Run (flags_of a).

(** The exit status of the process: 0 when [main] returns, the argument of
    [os.Exit], 2 after a panic; none while the program is blocked. *)
Definition exit_status {A} (o : Outcome A) : option Z :=
  match o with
  | Ret _ => Some 0
  | Exited code => Some code
  | Panicked _ => Some 2
  | Blocked => None
  end.
End Program.

(** ** The [iwconfig] version of [main.go] *)

(** The other version of the program joins the network with [iwconfig]
    and [dhclient], recognises a reply by ["1 packets received"], and its
    [connectToWiFi] returns the error only. Its polling loop takes the
    gateway out of the route query the same way. *)
Module MainGo.
Section Program.
Context {RT : GoRuntime}.

Definition pingIP (ip : string) : Prog Z := pingIP_with "1 packets received" ip.

(** The value is the error that [connectToWiFi] returns. *)
Fixpoint connectToWiFi_poll (fuel : nat) (ifwifi : string)
  : Prog (option string) :=
  match fuel with
  | O => fun w => (Blocked, w)
  | S fuel' =>
      Sleep ;;
      r <- CombinedOutput ["ip"; "route"; "show"; "default"; "dev"; ifwifi] ;;
      match err r with
      | Some e =>
          log Error ("Error getting default route after connecting to WiFi: " ++ e) ;;
          ret None
      | None =>
          route <- third_token (output r) ;;
          responseTime <- pingIP route ;;
          if negb (responseTime =? -1) then ret None
          else connectToWiFi_poll fuel' ifwifi
      end
  end.

Definition connectToWiFi (ifwifi bssid password : string)
  : Prog (option string) :=
  r <- CombinedOutput ["iwconfig"; ifwifi; "essid"; bssid] ;;
  match err r with
  | Some e => ret (Some e)
  | None =>
      log Info (output r) ;;
      r <- CombinedOutput ["iwconfig"; ifwifi; "key"; password] ;;
      match err r with
      | Some e => ret (Some e)
      | None =>
          log Info (output r) ;;
          r <- CombinedOutput ["dhclient"; ifwifi] ;;
          match err r with
          | Some e => ret (Some e)
          | None =>
              log Info (output r) ;;
              for_ever (fun fuel => connectToWiFi_poll fuel ifwifi)
          end
      end
  end.
End Program.
End MainGo.

(** ** Scenarios *)

(** A runtime to run the scenarios with: 64-bit [int]; the response time
    ["12.3"] of the example reply reads as 12 ms, as in Go; no scenario
    reaches the other library functions. *)
Definition demo_runtime : GoRuntime := {|
  int_size := Int64;
  ParseFloat_int := fun s => if String.eqb s "12.3" then Some 12 else None;
  parseIPv6 := fun _ => [];
  IPv6_String := fun _ => EmptyString;
  TrimSpace := fun s => s
|}.

Definition nl : string := String newline EmptyString.

(** The answer of [ping -c 1] when the reply arrives, and when it does not. *)
Definition ping_reply : ExecResult :=
  mkExec ("PING 8.8.8.8 (8.8.8.8) 56(84) bytes of data." ++ nl
          ++ "64 bytes from 8.8.8.8: icmp_seq=1 ttl=117 time=12.3 ms" ++ nl
          ++ nl
          ++ "--- 8.8.8.8 ping statistics ---" ++ nl
          ++ "1 packets transmitted, 1 received, 0% packet loss, time 0ms" ++ nl)
         None.

Definition ping_lost : ExecResult :=
  mkExec ("PING 8.8.8.8 (8.8.8.8) 56(84) bytes of data." ++ nl
          ++ nl
          ++ "--- 8.8.8.8 ping statistics ---" ++ nl
          ++ "1 packets transmitted, 0 received, 100% packet loss, time 0ms" ++ nl)
         (Some "exit status 1").

(** A command that succeeds and prints [out]; a command that fails. *)
Definition ok (out : string) : ExecResult := mkExec out None.
Definition failed (out e : string) : ExecResult := mkExec out (Some e).

Definition start (answers : list ExecResult) : World := mkWorld answers [].

(** The answer of the join; of the route query once the interface has a
    default route, before that (nothing printed, exit status 0), and when
    the command fails; of the route change. *)
Definition joined : ExecResult :=
  ok "Device wlan0 successfully activated.".

Definition route_line : ExecResult :=
  ok "default via 192.168.1.1 dev wlan0 proto dhcp metric 600 ".

Definition no_route : ExecResult := ok EmptyString.

Definition query_error : ExecResult := failed EmptyString "exit status 1".

Definition route_replaced : ExecResult := ok EmptyString.

Definition demo_args (endpoint : string) (retry : option Z) : Args :=
  mkArgs "wlan0" "home" "secret" endpoint retry.

(** ** Vocabulary of the properties *)

Section Vocabulary.
Context {RT : GoRuntime}.
Local Open Scope list_scope.

(** A probe is reachable when [pingIP] does not give [-1] on its answer. *)
Definition reachable (r : ExecResult) : bool :=
  negb (pingIP_result "1 received" r =? -1).

(** The run of unreachable probes at the head of a list, and at the end
    of the probes made so far (the trailing run). *)
Fixpoint leading_failures (probes : list ExecResult) : nat :=
  match probes with
  | [] => O
  | r :: probes' => if reachable r then O else S (leading_failures probes')
  end.

Definition trailing_failures (probes : list ExecResult) : nat :=
  leading_failures (rev probes).

(** The trailing run reaches [t] at the [n]-th probe, and not before. *)
Definition first_reach (t : Z) (probes : list ExecResult) (n : nat) : Prop :=
  (n <= List.length probes)%nat
  /\ Z.of_nat (trailing_failures (firstn n probes)) = t
  /\ forall m, (m < n)%nat ->
       Z.of_nat (trailing_failures (firstn m probes)) < t.

(** The same, for the probes [rest] made after the probes [before]. *)
Definition reach_from (t : Z) (before rest : list ExecResult) (n : nat) : Prop :=
  (1 <= n <= List.length rest)%nat
  /\ Z.of_nat (trailing_failures (before ++ firstn n rest)) = t
  /\ forall m, (1 <= m < n)%nat ->
       Z.of_nat (trailing_failures (before ++ firstn m rest)) < t.

Definition ping_argv (ip : string) : list string := ["ping"; "-c"; "1"; ip].

(** What the monitor does for the probes [probes], made after the probes
    [before]: it sleeps and pings, and after an unreachable probe it warns
    with the length of the trailing run as the attempt number. *)
Fixpoint probe_events (endpoint : string) (retry : Z)
         (before probes : list ExecResult) : list Event :=
  match probes with
  | [] => []
  | r :: probes' =>
      [EvSleep; EvExec (ping_argv endpoint)]
      ++ (if reachable r then []
          else [EvLog Warn
                  (failed_to_ping endpoint
                     (Z.of_nat (trailing_failures (before ++ [r]))) retry)])
      ++ probe_events endpoint retry (before ++ [r]) probes'
  end.

Definition pingInterface_events (endpoint : string) (retry : Z)
           (probes : list ExecResult) : list Event :=
  [EvLog Info ("Pinging endpoint " ++ endpoint)%string; EvNotify]
  ++ probe_events endpoint retry [] probes.
End Vocabulary.

(** *** Addresses and routes *)

Definition octet (a : Z) : Prop := 0 <= a <= 255.

(** The address [a.b.c.d] as a 32-bit number, and byte [k] of a number,
    byte 0 being the least significant. *)
Definition be32 (a b c d : Z) : Z := a * 2 ^ 24 + b * 2 ^ 16 + c * 2 ^ 8 + d.
Definition byte_of (k : Z) (n : Z) : Z := (n / 2 ^ (8 * k)) mod 256.

(** Following the spec's words, not the code: the network address is the
    endpoint masked with [p] prefix bits, and the CIDR descriptor is the
    masked network and the prefix length. *)
Definition prefix_mask (p : Z) : Z := 2 ^ 32 - 2 ^ (32 - p).
Definition spec_network (addr p : Z) : Z := Z.land addr (prefix_mask p).
Definition spec_cidr (a b c d p : Z) : string :=
  let n := spec_network (be32 a b c d) p in
  dotted (byte_of 3 n) (byte_of 2 n) (byte_of 1 n) (byte_of 0 n) ++ "/" ++ Itoa p.

Definition mask_bytes (p : Z) : list Z :=
  [byte_of 3 (prefix_mask p); byte_of 2 (prefix_mask p);
   byte_of 1 (prefix_mask p); byte_of 0 (prefix_mask p)].

(** The commands in a trace, oldest first. *)
Fixpoint commands (tr : list Event) : list (list string) :=
  match tr with
  | [] => []
  | EvExec argv :: tr' => argv :: commands tr'
  | _ :: tr' => commands tr'
  end.

(** The digit branch of [parseIPv4_loop], over the digits of one field. *)
Fixpoint ipv4_digits (ds : string) (prev : option ascii) (val digLen : Z)
  : option (option ascii * Z * Z) :=
  match ds with
  | EmptyString => Some (prev, val, digLen)
  | String c ds' =>
      if (digLen =? 1) && (val =? 0) then None
      else
        let val := val * 10 + Z.of_nat (nat_of_ascii c) - 48 in
        let digLen := digLen + 1 in
        if val >? 255 then None else ipv4_digits ds' (Some c) val digLen
  end.

Fixpoint all_digits (s : string) : bool :=
  match s with
  | EmptyString => true
  | String c s' => is_digit c && all_digits s'
  end.

(** The decimal text of [n] is a field that [parseIPv4_loop] reads back as
    [n], at the start of the text and after a dot. *)
Definition octet_text_ok (n : Z) : bool :=
  let ds := Itoa n in
  all_digits ds
  && match ds with EmptyString => false | _ => true end
  && match ipv4_digits ds None 0 0, ipv4_digits ds (Some "."%char) 0 0 with
     | Some (Some c, v, _), Some (Some c', v', _) =>
         (v =? n) && (v' =? n) && negb (Ascii.eqb c ".") && negb (Ascii.eqb c' ".")
     | _, _ => false
     end.

Section RouteVocabulary.
Context {RT : GoRuntime}.

(** The CIDR text and the error text that [replaceRoute] builds. *)
Definition route_cidr (ip : IP) (cidrMask : Z) : string :=
  IP_String (Mask ip (CIDRMask cidrMask 32)) ++ "/" ++ Itoa cidrMask.

Definition replace_failed (e out : string) : string :=
  "failed to replace route: " ++ e ++ ", output: " ++ TrimSpace out.
End RouteVocabulary.

(** *** The associator *)

Definition query_argv (ifwifi : string) : list string :=
  ["ip"; "route"; "show"; "default"; "dev"; ifwifi].

Definition nmcli_argv (ifwifi bssid password : string) : list string :=
  ["nmcli"; "d"; "wifi"; "connect"; bssid; "password"; password; "ifname"; ifwifi].

(** The gateway that the polling loop takes out of the answer of the route
    query: the third space-delimited token, when there is one. *)
Definition gateway_of (q : ExecResult) : option string :=
  nth_error (Split (output q) space) 2.

Definition query_failed_msg (e : string) : string :=
  "Error getting default route after connecting to WiFi: " ++ e.

Section AssocVocabulary.
Context {RT : GoRuntime}.
Local Open Scope list_scope.

(** What one polling iteration does when the query gives the gateway
    [route]: sleep, query, log, ping the gateway. *)
Definition poll_events (ifwifi route : string) : list Event :=
  [EvSleep; EvExec (query_argv ifwifi);
   EvLog Info ("Pinging default router: " ++ route)%string;
   EvExec (ping_argv route)].

(** Polling iterations that observed a gateway and found it unreachable:
    the answers, query then ping, and what the program did. *)
Inductive unreachable_polls (ifwifi : string)
  : list ExecResult -> list Event -> Prop :=
| polls_nil : unreachable_polls ifwifi [] []
| polls_cons q p route answers events :
    err q = None ->
    gateway_of q = Some route ->
    reachable p = false ->
    unreachable_polls ifwifi answers events ->
    unreachable_polls ifwifi (q :: p :: answers)
                      (poll_events ifwifi route ++ events).

(** The two ways in which the polling loop returns, [answers] being the
    answers it found pending, [rest] the ones it left, [events] what it
    did: it observed the gateway [gw] in a route query and the ping of
    [gw] was answered; or a route query failed. *)
Definition observed_and_probed (ifwifi gw : string)
           (answers rest : list ExecResult) (events : list Event) : Prop :=
  exists polls before q p,
    unreachable_polls ifwifi polls before
    /\ answers = polls ++ q :: p :: rest
    /\ err q = None /\ gateway_of q = Some gw /\ reachable p = true
    /\ events = before ++ poll_events ifwifi gw.

Definition query_gave_up (ifwifi : string)
           (answers rest : list ExecResult) (events : list Event) : Prop :=
  exists polls before q e,
    unreachable_polls ifwifi polls before
    /\ answers = polls ++ q :: rest
    /\ err q = Some e
    /\ events = before ++ [EvSleep; EvExec (query_argv ifwifi);
                           EvLog Error (query_failed_msg e)].
End AssocVocabulary.

(** *** The orchestrator *)

Definition is_route_replace (argv : list string) : bool :=
  match argv with
  | a :: b :: c :: _ => String.eqb a "ip" && String.eqb b "route" && String.eqb c "replace"
  | _ => false
  end.

(** The route mutations in a trace: the [ip route replace] commands. *)
Definition route_mutations (tr : list Event) : list (list string) :=
  filter is_route_replace (commands tr).

(** What [Run] logs before it starts the monitor. The retry count is read
    with [GetString] from an int flag, which gives the empty string. *)
Definition startup_events (a : Args) : list Event :=
  [EvLog Info "Starting Interface Reliability tool...";
   EvLog Info "Starting Interface Reliability tool with:";
   EvLog Info ("- WiFi interface: " ++ arg_wifi_if a);
   EvLog Info ("- WiFi SSID: " ++ arg_wifi_ssid a);
   EvLog Info ("- WiFi password: " ++ arg_wifi_password a);
   EvLog Info ("- Endpoint to check connectivity: " ++ arg_endpoint a);
   EvLog Info "- Max retry: "].

(** *** Vocabulary of the further properties *)

(** Every command of the events is the ping of [endpoint]. *)
Definition only_pings (endpoint : string) (events : list Event) : Prop :=
  Forall (fun argv => argv = ping_argv endpoint) (commands events).

(** The value of a digit, and the text of the fields after the first. *)
Definition digit_of (c : ascii) : Z := Z.of_nat (nat_of_ascii c) - 48.

Fixpoint dot_fields (fs : list Z) : string :=
  match fs with
  | [] => EmptyString
  | f :: fs' => "." ++ Itoa f ++ dot_fields fs'
  end.

(** Appending a digit to the decimal text of [v] gives the text of
    [10 v + d], for the values below 256. *)
Definition digit_appends (v d : Z) : bool :=
  String.eqb (Itoa (v * 10 + d))
             (Itoa v ++ String (ascii_of_nat (Z.to_nat (48 + d))) EmptyString).

(** Where [parseIPv4_loop] stands in the field it is reading: before its
    first digit (at the start of the text or after a dot, with text to
    come), or after the digits [cur] that make the value [val]. *)
Inductive field_state (cur : string) (prev : option ascii) (val digLen : Z)
          (s : string) : Prop :=
| field_start :
    cur = EmptyString -> val = 0 -> digLen = 0 ->
    prev = None \/ prev = Some "."%char -> s <> EmptyString ->
    field_state cur prev val digLen s
| field_digits c :
    cur = Itoa val -> 0 <= val <= 255 -> 1 <= digLen ->
    (val = 0 -> digLen = 1) -> prev = Some c -> is_digit c = true ->
    field_state cur prev val digLen s.

(** The byte [c] occurs in the text. *)
Fixpoint has_char (c : ascii) (s : string) : bool :=
  match s with
  | EmptyString => false
  | String x s' => Ascii.eqb x c || has_char c s'
  end.

(** A program that only adds to the trace. *)
Definition grows {A} (m : Prog A) : Prop :=
  forall w, exists events, trace (snd (m w)) = (trace w ++ events)%list.

Section Phases.
Context {RT : GoRuntime}.
Local Open Scope list_scope.

(** What [Run] does after the association: the route change, the log line
    and the second monitor. *)
Definition route_phase (a : Args) (router : string) : Prog unit :=
  replaceRoute (arg_endpoint a) 24 (arg_wifi_if a) router ;;
  log Info ("Successfully changed default route to " ++ arg_wifi_if a)%string ;;
  pingInterface (arg_endpoint a) 5 ;;
  ret tt.

Definition monitor_down_events (a : Args) (probes : list ExecResult) : list Event :=
  startup_events a
  ++ pingInterface_events (arg_endpoint a) 5 probes
  ++ [EvLog Error ("Ping toward " ++ arg_endpoint a ++ " endpoint failed")%string].

(** The events of a route change for a parsed endpoint, [answer] being the
    answer to the route command when there is one. *)
Definition route_change_events (a : Args) (router : string)
           (answer : option ExecResult) : list Event :=
  let ip := ParseIP (arg_endpoint a) in
  [EvLog Info ("Network address: " ++ IP_String (Mask ip (CIDRMask 24 32)))%string;
   EvLog Info ("Replacing default route for network " ++ route_cidr ip 24)%string;
   EvExec (route_replace_argv (route_cidr ip 24) router (arg_wifi_if a))]
  ++ match answer with
     | None => []
     | Some r =>
         match err r with
         | Some e => [EvLog Error (replace_failed e (output r))]
         | None => []
         end
         ++ [EvLog Info ("Successfully changed default route to "
                           ++ arg_wifi_if a)%string]
     end.

End Phases.

(** A runtime that reads one IPv6 address, as Go does. *)
Definition demo_runtime_v6 : GoRuntime := {|
  int_size := Int64;
  ParseFloat_int := fun s => if String.eqb s "12.3" then Some 12 else None;
  parseIPv6 := fun s =>
    if String.eqb s "2001:db8::1"
    then [32; 1; 13; 184; 0; 0; 0; 0; 0; 0; 0; 0; 0; 0; 0; 1]
    else [];
  IPv6_String := fun _ => EmptyString;
  TrimSpace := fun s => s
|}.

(** The reply line of [ping_reply]. *)
Definition reply_line : string :=
  "64 bytes from 8.8.8.8: icmp_seq=1 ttl=117 time=12.3 ms".

(** * Proofs *)

(** ** Integers *)

Lemma wrap_int_small (sz : IntSize) (z : Z) :
  min_int sz <= z <= max_int sz -> wrap_int sz z = z.
Proof.
  unfold min_int, max_int, wrap_int.
  destruct sz; simpl int_bits; intros H;
    rewrite Z.mod_small; lia.
Qed.

(** ** The liveness monitor *)

Section Monitor.
Context {RT : GoRuntime}.
Local Open Scope list_scope.

Lemma trailing_failures_snoc (probes : list ExecResult) (r : ExecResult) :
  trailing_failures (probes ++ [r])
  = if reachable r then O else S (trailing_failures probes).
Proof.
  unfold trailing_failures. rewrite rev_app_distr. reflexivity.
Qed.

Lemma trailing_failures_nil : trailing_failures [] = O.
Proof. reflexivity. Qed.

(** One iteration of the loop, on the answer [r] of the ping. *)
Lemma pingInterface_loop_cons fuel endpoint retry failures r rest tr :
  pingInterface_loop (S fuel) endpoint retry failures (mkWorld (r :: rest) tr)
  = let tr1 := tr ++ [EvSleep; EvExec (ping_argv endpoint)] in
    if reachable r then
      pingInterface_loop fuel endpoint retry 0 (mkWorld rest tr1)
    else
      let failures' := wrap_int int_size (failures + 1) in
      let tr2 := tr1 ++ [EvLog Warn (failed_to_ping endpoint failures' retry)] in
      if failures' >=? retry then (Ret (-1), mkWorld rest tr2)
      else pingInterface_loop fuel endpoint retry failures' (mkWorld rest tr2).
Proof.
  cbn [pingInterface_loop]. unfold reachable.
  unfold Sleep, log, emit, pingIP, pingIP_with, CombinedOutput, ret, bind.
  cbn [pending trace].
  rewrite <- app_assoc. cbn [app].
  destruct (negb (pingIP_result "1 received" r =? -1)); [reflexivity|].
  cbn zeta.
  destruct (wrap_int int_size (failures + 1) >=? retry); reflexivity.
Qed.

Lemma pingInterface_loop_nil fuel endpoint retry failures tr :
  pingInterface_loop (S fuel) endpoint retry failures (mkWorld [] tr)
  = (Blocked, mkWorld [] (tr ++ [EvSleep; EvExec (ping_argv endpoint)])).
Proof.
  cbn [pingInterface_loop].
  unfold Sleep, emit, pingIP, pingIP_with, CombinedOutput, bind.
  cbn [pending trace]. rewrite <- app_assoc. reflexivity.
Qed.

Lemma snoc_firstn (before : list ExecResult) r rest n :
  before ++ firstn (S n) (r :: rest) = (before ++ [r]) ++ firstn n rest.
Proof. cbn [firstn]. rewrite <- app_assoc. reflexivity. Qed.

Lemma reach_from_cons t before r rest n :
  reach_from t before (r :: rest) (S (S n)) ->
  reach_from t (before ++ [r]) rest (S n).
Proof.
  intros (Hn & Heq & Hlt). cbn [List.length] in Hn.
  split; [lia|]. split.
  - rewrite <- snoc_firstn. exact Heq.
  - intros m Hm. rewrite <- snoc_firstn. apply Hlt. lia.
Qed.

(** The loop started with the counter at the trailing run of the probes
    made [before] returns at the probe where the run first reaches [t]. *)
Lemma pingInterface_loop_down endpoint t :
  1 <= t <= max_int int_size ->
  forall rest before fuel tr n,
    (List.length rest < fuel)%nat ->
    Z.of_nat (trailing_failures before) < t ->
    reach_from t before rest n ->
    pingInterface_loop fuel endpoint t (Z.of_nat (trailing_failures before))
                       (mkWorld rest tr)
    = (Ret (-1),
       mkWorld (skipn n rest)
               (tr ++ probe_events endpoint t before (firstn n rest))).
Proof.
  intros Ht. induction rest as [|r rest IH]; intros before fuel tr n Hfuel Hk Hn.
  - destruct Hn as (Hn & _). cbn in Hn. lia.
  - destruct fuel as [|fuel]; [lia|]. cbn [List.length] in Hfuel.
    destruct n as [|n]; [destruct Hn as (Hn & _); lia|].
    rewrite pingInterface_loop_cons. cbn zeta.
    pose proof (trailing_failures_snoc before r) as Hs.
    cbn [firstn skipn probe_events].
    destruct (reachable r) eqn:Hr.
    + destruct n as [|n].
      * destruct Hn as (_ & Heq & _). cbn [firstn] in Heq.
        rewrite Hs in Heq. cbn in Heq. lia.
      * apply reach_from_cons in Hn.
        specialize (IH (before ++ [r]) fuel
                       (tr ++ [EvSleep; EvExec (ping_argv endpoint)]) (S n)).
        rewrite Hs in IH. cbn [Z.of_nat] in IH.
        rewrite IH; [|lia|lia|exact Hn].
        cbn [skipn firstn app]. rewrite <- app_assoc. reflexivity.
    + assert (Hw : wrap_int int_size (Z.of_nat (trailing_failures before) + 1)
                   = Z.of_nat (trailing_failures (before ++ [r]))).
      { rewrite Hs. rewrite wrap_int_small; [lia|].
        unfold min_int, max_int in *. destruct int_size; simpl int_bits in *; lia. }
      rewrite Hw.
      destruct (Z.of_nat (trailing_failures (before ++ [r])) >=? t) eqn:Hge.
      * destruct n as [|n].
        -- cbn [firstn probe_events app]. rewrite <- app_assoc. reflexivity.
        -- destruct Hn as (_ & _ & Hlt). specialize (Hlt 1%nat).
           cbn [firstn] in Hlt. lia.
      * destruct n as [|n].
        -- destruct Hn as (_ & Heq & _). cbn [firstn] in Heq. lia.
        -- apply reach_from_cons in Hn.
           rewrite (IH (before ++ [r]) fuel _ (S n)); [|lia|lia|exact Hn].
           cbn [skipn firstn app]. rewrite <- !app_assoc. reflexivity.
Qed.

(** While the run stays below [t] the loop goes on, up to the ping that
    has no answer yet. *)
Lemma pingInterface_loop_blocked endpoint t :
  1 <= t <= max_int int_size ->
  forall rest before fuel tr,
    (List.length rest < fuel)%nat ->
    Z.of_nat (trailing_failures before) < t ->
    (forall m, (1 <= m <= List.length rest)%nat ->
       Z.of_nat (trailing_failures (before ++ firstn m rest)) < t) ->
    pingInterface_loop fuel endpoint t (Z.of_nat (trailing_failures before))
                       (mkWorld rest tr)
    = (Blocked,
       mkWorld [] (tr ++ probe_events endpoint t before rest
                      ++ [EvSleep; EvExec (ping_argv endpoint)])).
Proof.
  intros Ht. induction rest as [|r rest IH]; intros before fuel tr Hfuel Hk Hlt.
  - destruct fuel as [|fuel]; [cbn in Hfuel; lia|].
    rewrite pingInterface_loop_nil. reflexivity.
  - destruct fuel as [|fuel]; [lia|]. cbn [List.length] in Hfuel.
    rewrite pingInterface_loop_cons. cbn zeta.
    pose proof (trailing_failures_snoc before r) as Hs.
    pose proof (Hlt 1%nat ltac:(cbn [List.length]; lia)) as H1.
    cbn [firstn] in H1.
    assert (Hrest : forall m, (1 <= m <= List.length rest)%nat ->
              Z.of_nat (trailing_failures ((before ++ [r]) ++ firstn m rest)) < t).
    { intros m Hm. rewrite <- snoc_firstn. apply Hlt. cbn [List.length]. lia. }
    cbn [probe_events].
    destruct (reachable r) eqn:Hr.
    + specialize (IH (before ++ [r]) fuel
                     (tr ++ [EvSleep; EvExec (ping_argv endpoint)])).
      rewrite Hs in IH. cbn [Z.of_nat] in IH.
      rewrite IH; [|lia|lia|exact Hrest].
      cbn [app]. rewrite <- !app_assoc. reflexivity.
    + assert (Hw : wrap_int int_size (Z.of_nat (trailing_failures before) + 1)
                   = Z.of_nat (trailing_failures (before ++ [r]))).
      { rewrite Hs. rewrite wrap_int_small; [lia|].
        unfold min_int, max_int in *. destruct int_size; simpl int_bits in *; lia. }
      rewrite Hw.
      destruct (Z.of_nat (trailing_failures (before ++ [r])) >=? t) eqn:Hge; [lia|].
      rewrite (IH (before ++ [r]) fuel); [|lia|lia|exact Hrest].
      cbn [app]. rewrite <- !app_assoc. reflexivity.
Qed.

(** Either the trailing run reaches [t] at some probe for the first time,
    or it stays below [t] over all the probes. *)
Lemma reach_from_dec t :
  forall rest before,
    Z.of_nat (trailing_failures before) < t ->
    (exists n, reach_from t before rest n)
    \/ (forall m, (1 <= m <= List.length rest)%nat ->
          Z.of_nat (trailing_failures (before ++ firstn m rest)) < t).
Proof.
  induction rest as [|r rest IH]; intros before Hk.
  - right. intros m Hm. cbn in Hm. lia.
  - pose proof (trailing_failures_snoc before r) as Hs.
    destruct (Z_lt_dec (Z.of_nat (trailing_failures (before ++ [r]))) t) as [Hlt|Hge].
    + destruct (IH (before ++ [r]) Hlt) as [(n & Hn & Heq & Hm)|Hall].
      * left. exists (S n). split; [cbn [List.length]; lia|]. split.
        -- rewrite snoc_firstn. exact Heq.
        -- intros m Hm'. destruct m as [|m]; [lia|]. rewrite snoc_firstn.
           destruct m as [|m]; [cbn [firstn]; rewrite app_nil_r; exact Hlt|].
           apply Hm. lia.
      * right. intros m Hm. destruct m as [|m]; [lia|]. rewrite snoc_firstn.
        destruct m as [|m]; [cbn [firstn]; rewrite app_nil_r; exact Hlt|].
        apply Hall. cbn [List.length] in Hm. lia.
    + left. exists 1%nat. split; [cbn [List.length]; lia|]. split.
      * cbn [firstn]. destruct (reachable r); lia.
      * intros m Hm. lia.
Qed.

Lemma first_reach_from t probes n :
  1 <= t -> first_reach t probes n <-> reach_from t [] probes n.
Proof.
  intros Ht. unfold first_reach, reach_from. cbn [app]. split.
  - intros (Hn & Heq & Hlt). split; [|split; [exact Heq|]].
    + destruct n; [cbn in Heq; lia|lia].
    + intros m Hm. apply Hlt. lia.
  - intros (Hn & Heq & Hlt). split; [lia|]. split; [exact Heq|].
    intros m Hm. destruct m as [|m]; [cbn; lia|]. apply Hlt. lia.
Qed.

Lemma pingInterface_start endpoint retry w :
  pingInterface endpoint retry w
  = pingInterface_loop (S (List.length (pending w))) endpoint retry 0
      (mkWorld (pending w)
               (trace w ++ [EvLog Info ("Pinging endpoint " ++ endpoint)%string;
                            EvNotify])).
Proof.
  unfold pingInterface, for_ever, log, emit, bind. cbn [pending trace].
  rewrite <- app_assoc. reflexivity.
Qed.

(** C1. For every threshold [t >= 1] (a Go [int]) and every sequence of
    probe answers, [pingInterface] returns Down ([-1]) exactly when the
    trailing run of consecutive unreachable probes reaches [t]: if the
    run first reaches [t] at the [n]-th probe, the monitor returns right
    after that probe, having made [n] probes and no more; if it never
    does, the monitor is still probing when the answers run out. The
    attempt number of every warning is the trailing run at that probe, so
    a reachable probe resets the count to 0 and an unreachable one adds
    one ([probe_events]). *)
Theorem pingInterface_down_iff_trailing_run (endpoint : string) (t : Z) (w : World) :
  1 <= t <= max_int int_size ->
  (forall n, first_reach t (pending w) n ->
     pingInterface endpoint t w
     = (Ret (-1),
        mkWorld (skipn n (pending w))
                (trace w ++ pingInterface_events endpoint t (firstn n (pending w)))))
  /\ ((exists n, first_reach t (pending w) n)
      \/ ((forall n, ~ first_reach t (pending w) n)
          /\ pingInterface endpoint t w
             = (Blocked,
                mkWorld [] (trace w ++ pingInterface_events endpoint t (pending w)
                              ++ [EvSleep; EvExec (ping_argv endpoint)])))).
Proof.
  intros Ht.
  assert (H0 : Z.of_nat (trailing_failures []) < t) by (cbn; lia).
  split.
  - intros n Hn. apply first_reach_from in Hn; [|lia].
    rewrite pingInterface_start.
    change 0 with (Z.of_nat (trailing_failures [])).
    rewrite (pingInterface_loop_down endpoint t Ht _ [] _ _ n); [|lia|exact H0|exact Hn].
    unfold pingInterface_events. rewrite <- app_assoc. reflexivity.
  - destruct (reach_from_dec t (pending w) [] H0) as [(n & Hn)|Hall].
    + left. exists n. apply first_reach_from; [lia|exact Hn].
    + right. split.
      * intros n Hn. apply first_reach_from in Hn; [|lia].
        destruct Hn as (Hn & Heq & _). specialize (Hall n Hn). lia.
      * rewrite pingInterface_start.
        change 0 with (Z.of_nat (trailing_failures [])).
        rewrite (pingInterface_loop_blocked endpoint t Ht); [|lia|exact H0|exact Hall].
        unfold pingInterface_events. rewrite <- !app_assoc. reflexivity.
Qed.
End Monitor.

(** ** Addresses *)

Lemma octet_texts_ok : forallb octet_text_ok (map Z.of_nat (seq 0 256)) = true.
Proof. vm_compute. reflexivity. Qed.

Lemma octet_text (n : Z) : octet n -> octet_text_ok n = true.
Proof.
  intros Hn. pose proof octet_texts_ok as H.
  rewrite forallb_forall in H. apply H.
  apply in_map_iff. exists (Z.to_nat n). split; [unfold octet in Hn; lia|].
  apply in_seq. unfold octet in Hn. lia.
Qed.

Lemma parseIPv4_loop_digits ds :
  all_digits ds = true ->
  forall rest prev fields val pos digLen,
    parseIPv4_loop (ds ++ rest) prev fields val pos digLen
    = match ipv4_digits ds prev val digLen with
      | Some (prev', val', digLen') => parseIPv4_loop rest prev' fields val' pos digLen'
      | None => None
      end.
Proof.
  induction ds as [|c ds IH]; intros Hd rest prev fields val pos digLen.
  - reflexivity.
  - cbn [all_digits] in Hd. apply andb_prop in Hd. destruct Hd as [Hc Hd].
    cbn [append parseIPv4_loop ipv4_digits]. rewrite Hc.
    destruct ((digLen =? 1) && (val =? 0)); [reflexivity|].
    cbn zeta.
    destruct (val * 10 + Z.of_nat (nat_of_ascii c) - 48 >? 255); [reflexivity|].
    apply IH. exact Hd.
Qed.

Lemma digit_not_special c :
  is_digit c = true ->
  Ascii.eqb c "." = false /\ Ascii.eqb c ":" = false /\ Ascii.eqb c "%" = false.
Proof.
  destruct c as [[] [] [] [] [] [] [] []]; cbv; intros H;
    try discriminate H; repeat split.
Qed.

Lemma addr_kind_digits ds rest :
  all_digits ds = true -> addr_kind (ds ++ rest) = addr_kind rest.
Proof.
  induction ds as [|c ds IH]; intros Hd; [reflexivity|].
  cbn [all_digits] in Hd. apply andb_prop in Hd. destruct Hd as [Hc Hd].
  cbn [append addr_kind].
  destruct (digit_not_special c Hc) as (H1 & H2 & H3).
  rewrite H1, H2, H3. apply IH. exact Hd.
Qed.

Lemma octet_text_facts n :
  octet n ->
  all_digits (Itoa n) = true
  /\ Itoa n <> EmptyString
  /\ forall prev, prev = None \/ prev = Some "."%char ->
       exists c dl, ipv4_digits (Itoa n) prev 0 0 = Some (Some c, n, dl)
                    /\ Ascii.eqb c "." = false.
Proof.
  intros Hn.
  pose proof (octet_text n Hn) as Hok. unfold octet_text_ok in Hok.
  cbn zeta in Hok.
  apply andb_prop in Hok. destruct Hok as [Hok H3].
  apply andb_prop in Hok. destruct Hok as [H1 H2].
  split; [exact H1|]. split.
  { destruct (Itoa n); [discriminate H2|discriminate]. }
  destruct (ipv4_digits (Itoa n) None 0 0) as [[[[c|] v] dl]|] eqn:E1;
    try discriminate H3.
  destruct (ipv4_digits (Itoa n) (Some "."%char) 0 0) as [[[[c'|] v'] dl']|] eqn:E2;
    try discriminate H3.
  apply andb_prop in H3. destruct H3 as [H3 Hc'].
  apply andb_prop in H3. destruct H3 as [H3 Hc].
  apply andb_prop in H3. destruct H3 as [Hv Hv'].
  apply Z.eqb_eq in Hv, Hv'. subst v v'.
  apply negb_true_iff in Hc, Hc'.
  intros prev [-> | ->]; eauto.
Qed.

(** One field followed by a dot and more text. *)
Lemma parseIPv4_loop_field n rest prev fields pos :
  octet n -> (prev = None \/ prev = Some "."%char) -> (pos < 3)%nat ->
  rest <> EmptyString ->
  parseIPv4_loop (Itoa n ++ "." ++ rest) prev fields 0 pos 0
  = parseIPv4_loop rest (Some "."%char) (set_field fields pos n) 0 (S pos) 0.
Proof.
  intros Hn Hprev Hpos Hrest.
  destruct (octet_text_facts n Hn) as (Hd & _ & Hf).
  destruct (Hf prev Hprev) as (c & dl & E & Hc).
  rewrite (parseIPv4_loop_digits _ Hd), E.
  assert (Hmod : n mod 256 = n) by (apply Z.mod_small; unfold octet in Hn; lia).
  destruct rest as [|c0 more]; [congruence|].
  cbn [append parseIPv4_loop]. cbn [is_digit nat_of_ascii].
  replace (is_digit ".") with false by reflexivity.
  replace (Ascii.eqb "." ".") with true by reflexivity.
  cbn [orb is_dot]. rewrite Hc.
  assert (Hp : (pos =? 3)%nat = false) by (apply Nat.eqb_neq; lia).
  rewrite Hp, Hmod. reflexivity.
Qed.

(** The last field. *)
Lemma parseIPv4_loop_last n fields :
  octet n ->
  parseIPv4_loop (Itoa n) (Some "."%char) fields 0 3 0
  = Some (set_field fields 3 n).
Proof.
  intros Hn.
  destruct (octet_text_facts n Hn) as (Hd & _ & Hf).
  destruct (Hf (Some "."%char) (or_intror eq_refl)) as (c & dl & E & Hc).
  assert (Happ : Itoa n = Itoa n ++ EmptyString).
  { generalize (Itoa n). induction s as [|x s IH]; cbn; congruence. }
  rewrite Happ, (parseIPv4_loop_digits _ Hd), E.
  assert (Hmod : n mod 256 = n) by (apply Z.mod_small; unfold octet in Hn; lia).
  cbn. rewrite Hmod. reflexivity.
Qed.

Lemma append_nonempty s t : s <> EmptyString -> s ++ t <> EmptyString.
Proof. destruct s; [congruence|discriminate]. Qed.

Lemma parseIPv4_dotted a b c d :
  octet a -> octet b -> octet c -> octet d ->
  parseIPv4 (dotted a b c d) = Some [a; b; c; d].
Proof.
  intros Ha Hb Hc Hd. unfold parseIPv4, dotted.
  pose proof (proj1 (proj2 (octet_text_facts b Hb))) as Nb.
  pose proof (proj1 (proj2 (octet_text_facts c Hc))) as Nc.
  pose proof (proj1 (proj2 (octet_text_facts d Hd))) as Nd.
  rewrite parseIPv4_loop_field;
    [|exact Ha|left; reflexivity|lia|apply append_nonempty; exact Nb].
  rewrite parseIPv4_loop_field;
    [|exact Hb|right; reflexivity|lia|apply append_nonempty; exact Nc].
  rewrite parseIPv4_loop_field;
    [|exact Hc|right; reflexivity|lia|exact Nd].
  rewrite parseIPv4_loop_last; [reflexivity|exact Hd].
Qed.

Lemma addr_kind_dotted a b c d :
  octet a -> addr_kind (dotted a b c d) = KindV4.
Proof.
  intros Ha. unfold dotted.
  rewrite addr_kind_digits; [reflexivity|].
  apply (octet_text_facts a Ha).
Qed.

Section NetProofs.
Context {RT : GoRuntime}.
Lemma ParseIP_dotted a b c d :
  octet a -> octet b -> octet c -> octet d ->
  ParseIP (dotted a b c d) = (v4InV6Prefix ++ [a; b; c; d])%list.
Proof.
  intros Ha Hb Hc Hd. unfold ParseIP.
  rewrite addr_kind_dotted by exact Ha.
  rewrite parseIPv4_dotted by assumption. reflexivity.
Qed.
End NetProofs.

Lemma CIDRMask_table :
  forallb (fun p => bytes_eqb (CIDRMask p 32) (mask_bytes p))
          (map Z.of_nat (seq 0 33)) = true.
Proof. vm_compute. reflexivity. Qed.

Lemma bytes_eqb_eq a b : bytes_eqb a b = true -> a = b.
Proof.
  revert b. induction a as [|x a IH]; intros [|y b] H; try discriminate H.
  - reflexivity.
  - cbn in H. apply andb_prop in H. destruct H as [Hx Hab].
    apply Z.eqb_eq in Hx. subst y. f_equal. apply IH. exact Hab.
Qed.

Lemma CIDRMask_prefix p : 0 <= p <= 32 -> CIDRMask p 32 = mask_bytes p.
Proof.
  intros Hp. pose proof CIDRMask_table as H.
  rewrite forallb_forall in H. apply bytes_eqb_eq. apply H.
  apply in_map_iff. exists (Z.to_nat p). split; [lia|].
  apply in_seq. lia.
Qed.

Lemma byte_of_land k n m :
  0 <= k -> byte_of k (Z.land n m) = Z.land (byte_of k n) (byte_of k m).
Proof.
  intros Hk. unfold byte_of.
  change 256 with (2 ^ 8).
  rewrite <- !Z.shiftr_div_pow2 by lia.
  rewrite <- !Z.land_ones by lia.
  rewrite Z.shiftr_land.
  apply Z.bits_inj'. intros i Hi.
  rewrite !Z.land_spec.
  destruct (Z.testbit (Z.shiftr n (8 * k)) i), (Z.testbit (Z.shiftr m (8 * k)) i),
    (Z.testbit (Z.ones 8) i); reflexivity.
Qed.

Lemma byte_of_be32 a b c d :
  octet a -> octet b -> octet c -> octet d ->
  byte_of 3 (be32 a b c d) = a /\ byte_of 2 (be32 a b c d) = b
  /\ byte_of 1 (be32 a b c d) = c /\ byte_of 0 (be32 a b c d) = d.
Proof.
  unfold octet, byte_of, be32. intros Ha Hb Hc Hd.
  change (2 ^ (8 * 3)) with 16777216. change (2 ^ (8 * 2)) with 65536.
  change (2 ^ (8 * 1)) with 256. change (2 ^ (8 * 0)) with 1.
  change (2 ^ 24) with 16777216. change (2 ^ 16) with 65536.
  change (2 ^ 8) with 256.
  assert (E3 : (a * 16777216 + b * 65536 + c * 256 + d) / 16777216 = a)
    by (symmetry; apply Z.div_unique with (r := b * 65536 + c * 256 + d); lia).
  assert (E2 : (a * 16777216 + b * 65536 + c * 256 + d) / 65536 = a * 256 + b)
    by (symmetry; apply Z.div_unique with (r := c * 256 + d); lia).
  assert (E1 : (a * 16777216 + b * 65536 + c * 256 + d) / 256
               = a * 65536 + b * 256 + c)
    by (symmetry; apply Z.div_unique with (r := d); lia).
  rewrite E3, E2, E1, Z.div_1_r.
  repeat split.
  - apply Z.mod_small; lia.
  - symmetry. apply Z.mod_unique with (q := a); lia.
  - symmetry. apply Z.mod_unique with (q := a * 256 + b); lia.
  - symmetry. apply Z.mod_unique with (q := a * 65536 + b * 256 + c); lia.
Qed.

Section MaskProofs.
Context {RT : GoRuntime}.

Lemma Mask_v4 a b c d m3 m2 m1 m0 :
  Mask (v4InV6Prefix ++ [a; b; c; d])%list [m3; m2; m1; m0]
  = [Z.land a m3; Z.land b m2; Z.land c m1; Z.land d m0].
Proof. reflexivity. Qed.

Lemma IP_String_v4 a b c d : IP_String [a; b; c; d] = dotted a b c d.
Proof. reflexivity. Qed.

(** The CIDR text that replaceRoute builds, against the spec's. *)
Lemma network_cidr_spec a b c d p :
  octet a -> octet b -> octet c -> octet d -> 0 <= p <= 32 ->
  IP_String (Mask (v4InV6Prefix ++ [a; b; c; d])%list (CIDRMask p 32))
    ++ "/" ++ Itoa p
  = spec_cidr a b c d p.
Proof.
  intros Ha Hb Hc Hd Hp.
  rewrite CIDRMask_prefix by exact Hp. unfold mask_bytes.
  rewrite Mask_v4, IP_String_v4. unfold spec_cidr, spec_network.
  cbn zeta. rewrite !byte_of_land by lia.
  destruct (byte_of_be32 a b c d Ha Hb Hc Hd) as (-> & -> & -> & ->).
  reflexivity.
Qed.
End MaskProofs.

(** ** The route manager *)

Lemma commands_app tr1 tr2 : commands (tr1 ++ tr2) = (commands tr1 ++ commands tr2)%list.
Proof.
  induction tr1 as [|e tr1 IH]; [reflexivity|].
  destruct e; cbn; rewrite IH; reflexivity.
Qed.

Section Route.
Context {RT : GoRuntime}.
Local Open Scope list_scope.

Lemma replaceRoute_parsed ipv4 cidrMask ifname router w :
  ParseIP ipv4 <> [] ->
  replaceRoute ipv4 cidrMask ifname router w
  = let network := Mask (ParseIP ipv4) (CIDRMask cidrMask 32) in
    let cidr := route_cidr (ParseIP ipv4) cidrMask in
    let tr1 := trace w
               ++ [EvLog Info ("Network address: " ++ IP_String network)%string;
                   EvLog Info ("Replacing default route for network " ++ cidr)%string;
                   EvExec (route_replace_argv cidr router ifname)] in
    match pending w with
    | [] => (Blocked, mkWorld [] tr1)
    | r :: rest =>
        match err r with
        | Some e =>
            (Ret (Some (replace_failed e (output r))),
             mkWorld rest (tr1 ++ [EvLog Error (replace_failed e (output r))]))
        | None => (Ret None, mkWorld rest tr1)
        end
    end.
Proof.
  intros Hip. unfold replaceRoute, route_cidr, replace_failed.
  destruct (ParseIP ipv4) as [|x ip] eqn:E; [congruence|].
  unfold log, emit, CombinedOutput, ret, bind. cbn [pending trace].
  cbn zeta. rewrite <- !app_assoc. cbn [app].
  destruct (pending w) as [|r rest]; [reflexivity|].
  destruct (err r); reflexivity.
Qed.

Lemma replaceRoute_unparsed ipv4 cidrMask ifname router w :
  ParseIP ipv4 = [] ->
  replaceRoute ipv4 cidrMask ifname router w
  = (Ret (Some ("invalid IP address: " ++ ipv4)%string),
     mkWorld (pending w)
             (trace w ++ [EvLog Error ("invalid IP address: " ++ ipv4)%string])).
Proof.
  intros Hip. unfold replaceRoute. rewrite Hip. reflexivity.
Qed.

Lemma replaceRoute_commands ipv4 cidrMask ifname router w :
  ParseIP ipv4 <> [] ->
  commands (trace (snd (replaceRoute ipv4 cidrMask ifname router w)))
  = commands (trace w)
    ++ [route_replace_argv (route_cidr (ParseIP ipv4) cidrMask) router ifname].
Proof.
  intros Hip. rewrite replaceRoute_parsed by exact Hip. cbn zeta.
  destruct (pending w) as [|r rest]; [|destruct (err r)]; cbn [snd trace];
    rewrite ?commands_app; cbn [commands]; rewrite ?app_nil_r; reflexivity.
Qed.

(** C5. The route computation is a function of the endpoint and the
    prefix length only. Every dotted quad [a.b.c.d] is parsed to its four
    octets; for an endpoint parsed to [a.b.c.d] and a prefix length [p] in
    0..32, the route command that [replaceRoute] runs carries, in whatever
    state of the world it is called, the CIDR of the spec: the address
    masked with [p] prefix bits, then [/p]. The commands that a call runs
    are the same in every world, for every endpoint and prefix length, so
    repeated calls compute the identical CIDR. Endpoint 8.8.8.8 with prefix
    length 24 gives 8.8.8.0/24. *)
Theorem replaceRoute_network_cidr :
  (forall a b c d, octet a -> octet b -> octet c -> octet d ->
     ParseIP (dotted a b c d) = v4InV6Prefix ++ [a; b; c; d])
  /\ (forall ipv4 a b c d p,
        ParseIP ipv4 = v4InV6Prefix ++ [a; b; c; d] ->
        octet a -> octet b -> octet c -> octet d -> 0 <= p <= 32 ->
        forall ifname router w,
          commands (trace (snd (replaceRoute ipv4 p ifname router w)))
          = commands (trace w)
            ++ [route_replace_argv (spec_cidr a b c d p) router ifname])
  /\ (forall ipv4 p ifname router,
        exists cmds, forall w,
          commands (trace (snd (replaceRoute ipv4 p ifname router w)))
          = commands (trace w) ++ cmds)
  /\ spec_cidr 8 8 8 8 24 = "8.8.8.0/24"%string.
Proof.
  split; [exact ParseIP_dotted|]. split; [|split; [|reflexivity]].
  - intros ipv4 a b c d p Hip Ha Hb Hc Hd Hp ifname router w.
    rewrite replaceRoute_commands by (rewrite Hip; discriminate).
    unfold route_cidr. rewrite Hip.
    rewrite network_cidr_spec by assumption. reflexivity.
  - intros ipv4 p ifname router.
    destruct (ParseIP ipv4) as [|x ip] eqn:Hip.
    + exists []. intros w. rewrite replaceRoute_unparsed by exact Hip.
      cbn [snd trace]. rewrite commands_app. reflexivity.
    + exists [route_replace_argv (route_cidr (x :: ip) p) router ifname].
      intros w. rewrite replaceRoute_commands by (rewrite Hip; discriminate).
      rewrite Hip. reflexivity.
Qed.

Lemma Mask_nil_mask ip : ip <> [] -> Mask ip [] = [].
Proof.
  intros Hip. unfold Mask. cbn [List.length Nat.eqb andb].
  destruct ip as [|x ip]; [congruence|]. reflexivity.
Qed.

Lemma CIDRMask_out_of_range p : p < 0 \/ 32 < p -> CIDRMask p 32 = [].
Proof.
  intros Hp. unfold CIDRMask. cbn [Z.eqb negb andb].
  destruct Hp as [Hp|Hp].
  - apply Z.ltb_lt in Hp. rewrite Hp. reflexivity.
  - replace (p <? 0) with false by (symmetry; apply Z.ltb_ge; lia).
    replace (p >? 32) with true by (symmetry; apply Z.gtb_lt; lia).
    reflexivity.
Qed.

Lemma route_cidr_out_of_range ip p :
  ip <> [] -> p < 0 \/ 32 < p -> route_cidr ip p = ("<nil>/" ++ Itoa p)%string.
Proof.
  intros Hip Hp. unfold route_cidr.
  rewrite CIDRMask_out_of_range by exact Hp.
  rewrite Mask_nil_mask by exact Hip. reflexivity.
Qed.

(** C9, as the code has it. [replaceRoute] does not check the prefix
    length. For a parsable endpoint and a prefix length outside 0..32 the
    mask is nil, the network prints as [<nil>], and the route command is
    run all the same, on [<nil>/p]; the error returned is the one of that
    command: nil when the command succeeds. *)
Theorem replaceRoute_prefix_out_of_range ipv4 p ifname router w :
  ParseIP ipv4 <> [] -> p < 0 \/ 32 < p ->
  commands (trace (snd (replaceRoute ipv4 p ifname router w)))
  = commands (trace w)
    ++ [route_replace_argv ("<nil>/" ++ Itoa p)%string router ifname]
  /\ forall r rest, pending w = r :: rest ->
       fst (replaceRoute ipv4 p ifname router w)
       = Ret (match err r with
              | Some e => Some (replace_failed e (output r))
              | None => None
              end).
Proof.
  intros Hip Hp. split.
  - rewrite replaceRoute_commands by exact Hip.
    rewrite route_cidr_out_of_range by assumption. reflexivity.
  - intros r rest Hw. rewrite replaceRoute_parsed by exact Hip.
    cbn zeta. rewrite Hw. destruct (err r); reflexivity.
Qed.
End Route.

(** ** The associator *)

Section Associator.
Context {RT : GoRuntime}.
Local Open Scope list_scope.

(** One iteration of the polling loop. *)
Lemma connectToWiFi_poll_step fuel ifwifi answers tr :
  connectToWiFi_poll (S fuel) ifwifi (mkWorld answers tr)
  = match answers with
    | [] => (Blocked, mkWorld [] (tr ++ [EvSleep; EvExec (query_argv ifwifi)]))
    | q :: answers' =>
        match err q with
        | Some e =>
            (Ret (EmptyString, None),
             mkWorld answers'
               (tr ++ [EvSleep; EvExec (query_argv ifwifi);
                       EvLog Error (query_failed_msg e)]))
        | None =>
            match gateway_of q with
            | None =>
                (Panicked (index_out_of_range 2
                             (List.length (Split (output q) space))),
                 mkWorld answers' (tr ++ [EvSleep; EvExec (query_argv ifwifi)]))
            | Some route =>
                match answers' with
                | [] => (Blocked, mkWorld [] (tr ++ poll_events ifwifi route))
                | p :: answers'' =>
                    if reachable p then
                      (Ret (route, None),
                       mkWorld answers'' (tr ++ poll_events ifwifi route))
                    else
                      connectToWiFi_poll fuel ifwifi
                        (mkWorld answers'' (tr ++ poll_events ifwifi route))
                end
            end
        end
    end.
Proof.
  cbn [connectToWiFi_poll].
  unfold Sleep, log, emit, CombinedOutput, third_token, gateway_of,
    pingIP, pingIP_with, reachable, bind.
  cbn [pending trace].
  destruct answers as [|q answers']; [rewrite <- app_assoc; reflexivity|].
  destruct (err q) as [e|].
  { unfold ret. cbn [pending trace]. rewrite <- !app_assoc. reflexivity. }
  destruct (nth_error (Split (output q) space) 2) as [route|].
  2:{ unfold panic. rewrite <- !app_assoc. reflexivity. }
  unfold ret, CombinedOutput, bind. cbn [pending trace].
  destruct answers' as [|p answers''].
  { unfold poll_events. rewrite <- !app_assoc. reflexivity. }
  unfold poll_events. rewrite <- !app_assoc. cbn [app].
  destruct (negb (pingIP_result "1 received" p =? -1)); reflexivity.
Qed.

(** The fuel of [for_ever] is enough: more fuel changes nothing. *)
Lemma connectToWiFi_poll_fuel ifwifi :
  forall f1 f2 answers tr,
    (List.length answers < f1)%nat -> (List.length answers < f2)%nat ->
    connectToWiFi_poll f1 ifwifi (mkWorld answers tr)
    = connectToWiFi_poll f2 ifwifi (mkWorld answers tr).
Proof.
  induction f1 as [|f1 IH]; intros f2 answers tr H1 H2; [lia|].
  destruct f2 as [|f2]; [lia|].
  rewrite !connectToWiFi_poll_step.
  destruct answers as [|q [|p answers]]; try reflexivity.
  destruct (err q); [reflexivity|].
  destruct (gateway_of q); [|reflexivity].
  destruct (reachable p); [reflexivity|].
  cbn [List.length] in H1, H2. apply IH; lia.
Qed.

Lemma polling_fuel ifwifi fuel answers tr :
  (List.length answers < fuel)%nat ->
  for_ever (fun fuel => connectToWiFi_poll fuel ifwifi) (mkWorld answers tr)
  = connectToWiFi_poll fuel ifwifi (mkWorld answers tr).
Proof.
  intros H. unfold for_ever. cbn [pending].
  apply connectToWiFi_poll_fuel; lia.
Qed.

(** An unreachable gateway: the loop goes to its next iteration. *)
Lemma polling_continues ifwifi q p route answers tr :
  err q = None -> gateway_of q = Some route -> reachable p = false ->
  for_ever (fun fuel => connectToWiFi_poll fuel ifwifi)
           (mkWorld (q :: p :: answers) tr)
  = for_ever (fun fuel => connectToWiFi_poll fuel ifwifi)
             (mkWorld answers (tr ++ poll_events ifwifi route)).
Proof.
  intros He Hg Hp.
  rewrite (polling_fuel ifwifi (S (S (S (List.length answers)))))
    by (cbn [List.length]; lia).
  rewrite connectToWiFi_poll_step, He, Hg, Hp.
  symmetry. apply polling_fuel. lia.
Qed.

Lemma polling_query_failed ifwifi q e answers tr :
  err q = Some e ->
  for_ever (fun fuel => connectToWiFi_poll fuel ifwifi)
           (mkWorld (q :: answers) tr)
  = (Ret (EmptyString, None),
     mkWorld answers (tr ++ [EvSleep; EvExec (query_argv ifwifi);
                             EvLog Error (query_failed_msg e)])).
Proof.
  intros He. unfold for_ever. cbn [pending].
  rewrite connectToWiFi_poll_step, He. reflexivity.
Qed.

Lemma polling_panics ifwifi q answers tr :
  err q = None -> gateway_of q = None ->
  for_ever (fun fuel => connectToWiFi_poll fuel ifwifi)
           (mkWorld (q :: answers) tr)
  = (Panicked (index_out_of_range 2 (List.length (Split (output q) space))),
     mkWorld answers (tr ++ [EvSleep; EvExec (query_argv ifwifi)])).
Proof.
  intros He Hg. unfold for_ever. cbn [pending].
  rewrite connectToWiFi_poll_step, He, Hg. reflexivity.
Qed.

Lemma polling_reachable ifwifi q p route answers tr :
  err q = None -> gateway_of q = Some route -> reachable p = true ->
  for_ever (fun fuel => connectToWiFi_poll fuel ifwifi)
           (mkWorld (q :: p :: answers) tr)
  = (Ret (route, None), mkWorld answers (tr ++ poll_events ifwifi route)).
Proof.
  intros He Hg Hp. unfold for_ever. cbn [pending].
  rewrite connectToWiFi_poll_step, He, Hg, Hp. reflexivity.
Qed.

(** After the join. *)
Lemma connectToWiFi_joined ifwifi bssid password join answers tr :
  err join = None ->
  connectToWiFi ifwifi bssid password (mkWorld (join :: answers) tr)
  = for_ever (fun fuel => connectToWiFi_poll fuel ifwifi)
             (mkWorld answers
                (tr ++ [EvExec (nmcli_argv ifwifi bssid password);
                        EvLog Info (output join)])).
Proof.
  intros He. unfold connectToWiFi, CombinedOutput, bind. cbn [pending trace].
  rewrite He. unfold log, emit, bind. cbn [pending trace].
  rewrite <- app_assoc. reflexivity.
Qed.

Lemma connectToWiFi_join_failed ifwifi bssid password join e answers tr :
  err join = Some e ->
  connectToWiFi ifwifi bssid password (mkWorld (join :: answers) tr)
  = (Ret (EmptyString, Some e),
     mkWorld answers (tr ++ [EvExec (nmcli_argv ifwifi bssid password)])).
Proof.
  intros He. unfold connectToWiFi, CombinedOutput, bind. cbn [pending trace].
  rewrite He. reflexivity.
Qed.

Lemma connectToWiFi_join_blocked ifwifi bssid password tr :
  connectToWiFi ifwifi bssid password (mkWorld [] tr)
  = (Blocked, mkWorld [] (tr ++ [EvExec (nmcli_argv ifwifi bssid password)])).
Proof. reflexivity. Qed.

(** Every return of the polling loop is one of the two. *)
Lemma polling_returns ifwifi :
  forall fuel answers tr gw e w',
    connectToWiFi_poll fuel ifwifi (mkWorld answers tr) = (Ret (gw, e), w') ->
    e = None
    /\ exists events,
         trace w' = tr ++ events
         /\ (observed_and_probed ifwifi gw answers (pending w') events
             \/ (gw = EmptyString
                 /\ query_gave_up ifwifi answers (pending w') events)).
Proof.
  induction fuel as [|fuel IH]; intros answers tr gw e w' H; [discriminate H|].
  rewrite connectToWiFi_poll_step in H.
  destruct answers as [|q answers]; [discriminate H|].
  destruct (err q) as [eq|] eqn:He.
  { inversion H; subst. split; [reflexivity|].
    eexists. split; [reflexivity|]. right. split; [reflexivity|].
    exists [], [], q, eq. cbn [pending app].
    repeat split; [constructor|exact He]. }
  destruct (gateway_of q) as [route|] eqn:Hg; [|discriminate H].
  destruct answers as [|p answers]; [discriminate H|].
  destruct (reachable p) eqn:Hp.
  { inversion H; subst. split; [reflexivity|].
    eexists. split; [reflexivity|]. left.
    exists [], [], q, p. cbn [pending app].
    repeat split; [constructor|exact He|exact Hg|exact Hp]. }
  apply IH in H. destruct H as (-> & events & Htr & Hcase).
  split; [reflexivity|].
  exists (poll_events ifwifi route ++ events).
  split; [rewrite Htr, <- app_assoc; reflexivity|].
  destruct Hcase as [(polls & before & q' & p' & Hpolls & -> & He' & Hg' & Hp' & ->)
                    |(-> & polls & before & q' & e' & Hpolls & -> & He' & ->)].
  - left. exists (q :: p :: polls), (poll_events ifwifi route ++ before), q', p'.
    split; [econstructor; eassumption|].
    split; [reflexivity|].
    repeat (split; [assumption|]).
    rewrite <- app_assoc. reflexivity.
  - right. split; [reflexivity|].
    exists (q :: p :: polls), (poll_events ifwifi route ++ before), q', e'.
    split; [econstructor; eassumption|].
    split; [reflexivity|].
    split; [assumption|].
    rewrite <- app_assoc. reflexivity.
Qed.

(** The loop goes through the unreachable gateways. *)
Lemma polling_skips ifwifi polls before :
  unreachable_polls ifwifi polls before ->
  forall answers tr,
    for_ever (fun fuel => connectToWiFi_poll fuel ifwifi)
             (mkWorld (polls ++ answers) tr)
    = for_ever (fun fuel => connectToWiFi_poll fuel ifwifi)
               (mkWorld answers (tr ++ before)).
Proof.
  induction 1 as [|q p route polls before He Hg Hp Hpolls IH]; intros answers tr.
  - rewrite app_nil_r. reflexivity.
  - cbn [app]. rewrite (polling_continues ifwifi q p route) by assumption.
    rewrite IH, <- app_assoc. reflexivity.
Qed.

(** Whatever happens, an iteration starts with the sleep of one second
    and the route query. *)
Lemma polling_starts_with_sleep ifwifi fuel answers tr :
  exists events,
    trace (snd (connectToWiFi_poll (S fuel) ifwifi (mkWorld answers tr)))
    = tr ++ [EvSleep; EvExec (query_argv ifwifi)] ++ events.
Proof.
  revert answers tr. induction fuel as [|fuel IH]; intros answers tr;
    rewrite connectToWiFi_poll_step;
    (destruct answers as [|q answers];
     [exists []; reflexivity|]);
    (destruct (err q); [eexists; cbn [snd trace]; reflexivity|]);
    (destruct (gateway_of q) as [route|];
     [|exists []; reflexivity]);
    (destruct answers as [|p answers];
     [eexists; cbn [snd trace]; unfold poll_events; reflexivity|]);
    (destruct (reachable p);
     [eexists; cbn [snd trace]; unfold poll_events; reflexivity|]).
  - exists [EvLog Info ("Pinging default router: " ++ route)%string;
            EvExec (ping_argv route)]. reflexivity.
  - destruct (IH answers (tr ++ poll_events ifwifi route)) as (events & Hev).
    rewrite Hev. eexists. unfold poll_events. rewrite <- !app_assoc.
    cbn [app]. reflexivity.
Qed.

Lemma gateway_of_short q :
  (List.length (Split (output q) space) < 3)%nat -> gateway_of q = None.
Proof. intros H. apply nth_error_None. lia. Qed.

(** The polling loop of the [iwconfig] version, at a query answer without a
    third token. *)
Lemma MainGo_polling_panics ifwifi q answers tr :
  err q = None -> gateway_of q = None ->
  for_ever (fun fuel => MainGo.connectToWiFi_poll fuel ifwifi)
           (mkWorld (q :: answers) tr)
  = (Panicked (index_out_of_range 2 (List.length (Split (output q) space))),
     mkWorld answers (tr ++ [EvSleep; EvExec (query_argv ifwifi)])).
Proof.
  intros He Hg. unfold for_ever. cbn [pending MainGo.connectToWiFi_poll].
  unfold Sleep, emit, CombinedOutput, third_token, bind. cbn [pending trace].
  rewrite He. unfold gateway_of in Hg. rewrite Hg.
  unfold panic. rewrite <- app_assoc. reflexivity.
Qed.

Lemma MainGo_poll_fuel ifwifi :
  forall f1 f2 answers tr,
    (List.length answers < f1)%nat -> (List.length answers < f2)%nat ->
    MainGo.connectToWiFi_poll f1 ifwifi (mkWorld answers tr)
    = MainGo.connectToWiFi_poll f2 ifwifi (mkWorld answers tr).
Proof.
  induction f1 as [|f1 IH]; intros f2 answers tr H1 H2; [lia|].
  destruct f2 as [|f2]; [lia|].
  cbn [MainGo.connectToWiFi_poll].
  unfold Sleep, log, emit, CombinedOutput, third_token, MainGo.pingIP,
    pingIP_with, bind.
  cbn [pending trace].
  destruct answers as [|q answers]; [reflexivity|].
  destruct (err q); [reflexivity|].
  destruct (nth_error (Split (output q) space) 2); [|reflexivity].
  unfold ret, CombinedOutput, bind. cbn [pending trace].
  destruct answers as [|p answers]; [reflexivity|].
  destruct (negb (pingIP_result "1 packets received" p =? -1)); [reflexivity|].
  cbn [List.length] in H1, H2. apply IH; lia.
Qed.

(** C10. Taking the gateway as the third space-delimited token of the
    route query's output is total only when the output has at least three
    tokens: then it gives the token; with fewer than three tokens it is an
    index out of range, a runtime panic. In the polling loop of
    [connectToWiFi], in both versions of the program, a query
    that exits successfully with fewer than three tokens in its output
    (the empty output is one token) ends the program in that panic: the
    gateway is not pinged and the query is not retried. *)
Theorem gateway_extraction_panics_below_three_tokens :
  (forall out w, (3 <= List.length (Split out space))%nat ->
     exists route, nth_error (Split out space) 2 = Some route
                   /\ third_token out w = (Ret route, w))
  /\ (forall out w, (List.length (Split out space) < 3)%nat ->
        third_token out w
        = (Panicked (index_out_of_range 2 (List.length (Split out space))), w))
  /\ (forall ifwifi q answers tr,
        err q = None -> (List.length (Split (output q) space) < 3)%nat ->
        for_ever (fun fuel => connectToWiFi_poll fuel ifwifi)
                 (mkWorld (q :: answers) tr)
        = (Panicked (index_out_of_range 2 (List.length (Split (output q) space))),
           mkWorld answers (tr ++ [EvSleep; EvExec (query_argv ifwifi)])))
  /\ (forall ifwifi q answers tr,
        err q = None -> (List.length (Split (output q) space) < 3)%nat ->
        for_ever (fun fuel => MainGo.connectToWiFi_poll fuel ifwifi)
                 (mkWorld (q :: answers) tr)
        = (Panicked (index_out_of_range 2 (List.length (Split (output q) space))),
           mkWorld answers (tr ++ [EvSleep; EvExec (query_argv ifwifi)])))
  /\ Split EmptyString space = [EmptyString].
Proof.
  split; [|split; [|split; [|split]]].
  - intros out w H. unfold third_token.
    destruct (nth_error (Split out space) 2) as [route|] eqn:E.
    + exists route. split; reflexivity.
    + apply nth_error_None in E. lia.
  - intros out w H. unfold third_token.
    replace (nth_error (Split out space) 2) with (@None string)
      by (symmetry; apply nth_error_None; lia).
    reflexivity.
  - intros ifwifi q answers tr He Hlen.
    apply polling_panics; [exact He|apply gateway_of_short; exact Hlen].
  - intros ifwifi q answers tr He Hlen.
    apply MainGo_polling_panics; [exact He|apply gateway_of_short; exact Hlen].
  - reflexivity.
Qed.

(** C3, as the code has it. A polling iteration whose route query
    succeeds and gives a third token that does not answer the ping (as a
    token that is no address does not) is treated as not yet associated:
    nothing is returned, no error, and the loop goes to its next
    iteration, which starts with the sleep of one second and the next
    query. A polling iteration whose route query command fails ends the
    polling: [connectToWiFi] returns the empty gateway and a nil error. *)
Theorem polling_retries_unreachable_gateway (ifwifi : string) (q : ExecResult)
        (answers : list ExecResult) (tr : list Event) :
  (forall p answers' route,
     answers = p :: answers' ->
     err q = None -> gateway_of q = Some route -> reachable p = false ->
     for_ever (fun fuel => connectToWiFi_poll fuel ifwifi)
              (mkWorld (q :: answers) tr)
     = for_ever (fun fuel => connectToWiFi_poll fuel ifwifi)
                (mkWorld answers' (tr ++ poll_events ifwifi route))
     /\ exists events,
          trace (snd (for_ever (fun fuel => connectToWiFi_poll fuel ifwifi)
                               (mkWorld answers' (tr ++ poll_events ifwifi route))))
          = (tr ++ poll_events ifwifi route)
            ++ [EvSleep; EvExec (query_argv ifwifi)] ++ events)
  /\ (forall e,
        err q = Some e ->
        for_ever (fun fuel => connectToWiFi_poll fuel ifwifi)
                 (mkWorld (q :: answers) tr)
        = (Ret (EmptyString, None),
           mkWorld answers (tr ++ [EvSleep; EvExec (query_argv ifwifi);
                                   EvLog Error (query_failed_msg e)]))).
Proof.
  split.
  - intros p answers' route -> He Hg Hp. split.
    + apply polling_continues; assumption.
    + unfold for_ever. cbn [pending]. apply polling_starts_with_sleep.
  - intros e He. apply polling_query_failed. exact He.
Qed.

(** C8, as the code has it. When [connectToWiFi] returns without an error,
    the join succeeded and then either the value returned is the third
    token of the output of a successful default-route query on the
    interface, pinged right after that query and reachable, every gateway
    observed before it having been pinged and found unreachable; or a
    default-route query failed and the value returned is the empty
    string. And when the gateways observed are unreachable until one is
    reachable, polling goes on through the former and returns the latter. *)
Theorem connectToWiFi_success_characterised
        (ifwifi bssid password : string) (tr : list Event) :
  (forall answers gw w',
     connectToWiFi ifwifi bssid password (mkWorld answers tr)
     = (Ret (gw, None), w') ->
     exists join polled events,
       answers = join :: polled /\ err join = None
       /\ trace w' = tr ++ [EvExec (nmcli_argv ifwifi bssid password);
                            EvLog Info (output join)] ++ events
       /\ (observed_and_probed ifwifi gw polled (pending w') events
           \/ (gw = EmptyString
               /\ query_gave_up ifwifi polled (pending w') events)))
  /\ (forall join polls before q p gw rest,
        err join = None ->
        unreachable_polls ifwifi polls before ->
        err q = None -> gateway_of q = Some gw -> reachable p = true ->
        connectToWiFi ifwifi bssid password
                      (mkWorld (join :: polls ++ q :: p :: rest) tr)
        = (Ret (gw, None),
           mkWorld rest
                   (tr ++ [EvExec (nmcli_argv ifwifi bssid password);
                           EvLog Info (output join)]
                       ++ before ++ poll_events ifwifi gw))).
Proof.
  split.
  - intros answers gw w' H.
    destruct answers as [|join polled];
      [rewrite connectToWiFi_join_blocked in H; discriminate H|].
    destruct (err join) as [e|] eqn:He.
    { rewrite (connectToWiFi_join_failed _ _ _ _ e) in H by exact He.
      discriminate H. }
    rewrite connectToWiFi_joined in H by exact He.
    unfold for_ever in H. cbn [pending] in H.
    apply polling_returns in H. destruct H as (_ & events & Htr & Hcase).
    exists join, polled, events.
    split; [reflexivity|]. split; [exact He|].
    split; [rewrite Htr, <- app_assoc; reflexivity|exact Hcase].
  - intros join polls before q p gw rest Hj Hpolls He Hg Hp.
    rewrite connectToWiFi_joined by exact Hj.
    rewrite (polling_skips ifwifi polls before Hpolls).
    rewrite (polling_reachable ifwifi q p gw) by assumption.
    rewrite <- !app_assoc. reflexivity.
Qed.
End Associator.

(** ** The orchestrator *)

Section Orchestrator.
Context {RT : GoRuntime}.
Local Open Scope list_scope.

Lemma pingInterface_loop_fuel endpoint retry :
  forall f1 f2 failures answers tr,
    (List.length answers < f1)%nat -> (List.length answers < f2)%nat ->
    pingInterface_loop f1 endpoint retry failures (mkWorld answers tr)
    = pingInterface_loop f2 endpoint retry failures (mkWorld answers tr).
Proof.
  induction f1 as [|f1 IH]; intros f2 failures answers tr H1 H2; [lia|].
  destruct f2 as [|f2]; [lia|].
  destruct answers as [|r answers].
  - rewrite !pingInterface_loop_nil. reflexivity.
  - rewrite !pingInterface_loop_cons. cbn zeta. cbn [List.length] in H1, H2.
    destruct (reachable r); [apply IH; lia|].
    destruct (wrap_int int_size (failures + 1) >=? retry);
      [reflexivity|apply IH; lia].
Qed.

Lemma five_is_an_int : 1 <= 5 <= max_int int_size.
Proof. unfold max_int. destruct int_size; cbn; lia. Qed.

(** The monitor returns Down right after the probes [probes] when the
    trailing run first reaches [t] at the last of them. *)
Lemma pingInterface_down_after endpoint t probes rest tr :
  1 <= t <= max_int int_size ->
  first_reach t probes (List.length probes) ->
  pingInterface endpoint t (mkWorld (probes ++ rest) tr)
  = (Ret (-1), mkWorld rest (tr ++ pingInterface_events endpoint t probes)).
Proof.
  intros Ht (_ & Heq & Hlt).
  rewrite pingInterface_start. cbn [pending trace].
  change 0 with (Z.of_nat (trailing_failures [])).
  assert (Hcut : forall m, (m <= List.length probes)%nat ->
                   firstn m (probes ++ rest) = firstn m probes).
  { intros m Hm. rewrite firstn_app.
    replace (m - List.length probes)%nat with O by lia.
    cbn [firstn]. apply app_nil_r. }
  rewrite (pingInterface_loop_down endpoint t Ht _ [] _ _ (List.length probes)).
  - rewrite Hcut by lia. rewrite firstn_all.
    rewrite skipn_app, skipn_all, Nat.sub_diag.
    cbn [skipn app]. unfold pingInterface_events.
    rewrite <- app_assoc. reflexivity.
  - lia.
  - cbn. lia.
  - split; [|split].
    + rewrite length_app. destruct probes; [cbn in Heq; lia|cbn [List.length]; lia].
    + cbn [app]. rewrite Hcut by lia. exact Heq.
    + intros m Hm. cbn [app]. rewrite Hcut by lia. apply Hlt. lia.
Qed.

Lemma commands_probe_events endpoint t :
  forall probes before,
    route_mutations (probe_events endpoint t before probes) = [].
Proof.
  unfold route_mutations.
  induction probes as [|r probes IH]; intros before; [reflexivity|].
  cbn [probe_events]. rewrite !commands_app.
  destruct (reachable r); cbn; apply IH.
Qed.

Lemma route_mutations_app tr1 tr2 :
  route_mutations (tr1 ++ tr2) = route_mutations tr1 ++ route_mutations tr2.
Proof. unfold route_mutations. rewrite commands_app. apply filter_app. Qed.

Lemma route_mutations_logs (a : Args) :
  route_mutations (startup_events a) = [].
Proof. reflexivity. Qed.

(** A log line at the head of a program: it goes to the trace. *)
Ltac run_log :=
  unfold log at 1; unfold emit; unfold bind at 1; cbn [pending trace].

(** [Run] up to the return of the first monitor. *)
Lemma main_monitor_down (a : Args) probes rest tr :
  first_reach 5 probes (List.length probes) ->
  main a (mkWorld (probes ++ rest) tr)
  = (res <- connectToWiFi (arg_wifi_if a) (arg_wifi_ssid a) (arg_wifi_password a) ;;
     let '(router, err) := res in
     match err with
     | Some e =>
         log Error ("Error connecting to WiFi: " ++ e) ;;
         os_Exit 1
     | None =>
         log Info ("Successfully connected to WiFi with SSID " ++ arg_wifi_ssid a) ;;
         replaceRoute (arg_endpoint a) 24 (arg_wifi_if a) router ;;
         log Info ("Successfully changed default route to " ++ arg_wifi_if a) ;;
         pingInterface (arg_endpoint a) 5 ;;
         ret tt
     end)
      (mkWorld rest
         (tr ++ startup_events a
             ++ pingInterface_events (arg_endpoint a) 5 probes
             ++ [EvLog Error ("Ping toward " ++ arg_endpoint a ++ " endpoint failed")])).
Proof.
  intros Hdown. unfold main, Run.
  change (fst (GetString (flags_of a) "wifi-if")) with (arg_wifi_if a).
  change (fst (GetString (flags_of a) "wifi-ssid")) with (arg_wifi_ssid a).
  change (fst (GetString (flags_of a) "wifi-password")) with (arg_wifi_password a).
  change (fst (GetString (flags_of a) "endpoint")) with (arg_endpoint a).
  change (fst (GetString (flags_of a) "retry")) with EmptyString.
  do 7 run_log.
  unfold bind at 1.
  rewrite (pingInterface_down_after _ 5 probes rest _ five_is_an_int Hdown).
  run_log.
  unfold startup_events. rewrite <- !app_assoc. cbn [app]. reflexivity.
Qed.

(** The monitor returns Down or is still probing: it never exits or
    panics by itself. *)
Lemma pingInterface_outcome endpoint t w :
  1 <= t <= max_int int_size ->
  fst (pingInterface endpoint t w) = Ret (-1)
  \/ fst (pingInterface endpoint t w) = Blocked.
Proof.
  intros Ht. rewrite pingInterface_start.
  assert (H0 : Z.of_nat (trailing_failures []) < t) by (cbn; lia).
  change 0 with (Z.of_nat (trailing_failures [])).
  destruct (reach_from_dec t (pending w) [] H0) as [(n & Hn)|Hall].
  - left. rewrite (pingInterface_loop_down endpoint t Ht _ [] _ _ n);
      [reflexivity|lia|exact H0|exact Hn].
  - right. rewrite (pingInterface_loop_blocked endpoint t Ht);
      [reflexivity|lia|exact H0|exact Hall].
Qed.

(** C6. When the WiFi join command itself fails, [connectToWiFi] returns
    the error at once, having run the join command and nothing else (no
    retry, no polling); and [main], once the monitor has declared the
    primary path down, logs the error and exits with status 1 without a
    route mutation: the route manager is never run. *)
Theorem join_failure_exits_without_routing
        (a : Args) (probes : list ExecResult) (join : ExecResult) (e : string)
        (rest : list ExecResult) (tr : list Event) :
  first_reach 5 probes (List.length probes) ->
  err join = Some e ->
  connectToWiFi (arg_wifi_if a) (arg_wifi_ssid a) (arg_wifi_password a)
                (mkWorld (join :: rest) tr)
  = (Ret (EmptyString, Some e),
     mkWorld rest
       (tr ++ [EvExec (nmcli_argv (arg_wifi_if a) (arg_wifi_ssid a)
                                  (arg_wifi_password a))]))
  /\ main a (mkWorld (probes ++ join :: rest) tr)
     = (Exited 1,
        mkWorld rest
          (tr ++ startup_events a
              ++ pingInterface_events (arg_endpoint a) 5 probes
              ++ [EvLog Error ("Ping toward " ++ arg_endpoint a ++ " endpoint failed");
                  EvExec (nmcli_argv (arg_wifi_if a) (arg_wifi_ssid a)
                                     (arg_wifi_password a));
                  EvLog Error ("Error connecting to WiFi: " ++ e)]))
  /\ exit_status (fst (main a (mkWorld (probes ++ join :: rest) tr))) = Some 1
  /\ route_mutations (trace (snd (main a (mkWorld (probes ++ join :: rest) tr))))
     = route_mutations tr.
Proof.
  intros Hdown He.
  assert (Hmain : main a (mkWorld (probes ++ join :: rest) tr)
     = (Exited 1,
        mkWorld rest
          (tr ++ startup_events a
              ++ pingInterface_events (arg_endpoint a) 5 probes
              ++ [EvLog Error ("Ping toward " ++ arg_endpoint a ++ " endpoint failed");
                  EvExec (nmcli_argv (arg_wifi_if a) (arg_wifi_ssid a)
                                     (arg_wifi_password a));
                  EvLog Error ("Error connecting to WiFi: " ++ e)]))).
  { rewrite (main_monitor_down a probes (join :: rest) tr Hdown).
    unfold bind at 1.
    rewrite (connectToWiFi_join_failed _ _ _ join e) by exact He.
    unfold log, emit, os_Exit, bind. cbn [pending trace].
    rewrite <- !app_assoc. cbn [app]. reflexivity. }
  split; [apply connectToWiFi_join_failed; exact He|].
  split; [exact Hmain|].
  rewrite Hmain. cbn [fst snd trace exit_status].
  split; [reflexivity|].
  rewrite !route_mutations_app. rewrite route_mutations_logs.
  unfold pingInterface_events. rewrite route_mutations_app.
  rewrite commands_probe_events. cbn. rewrite app_nil_r. reflexivity.
Qed.

(** C2, what the code does. [Run] drops the error that [replaceRoute]
    returns: when the route manager fails, on validation or because the
    operating system rejects the route change, [main] logs that the
    default route was changed and goes on to the post-failover monitor;
    the process does not exit with a non-zero status. *)
Theorem main_goes_on_after_route_failure
        (a : Args) (probes rest : list ExecResult) (tr : list Event)
        (router e : string) (w2 w3 : World) :
  first_reach 5 probes (List.length probes) ->
  connectToWiFi (arg_wifi_if a) (arg_wifi_ssid a) (arg_wifi_password a)
    (mkWorld rest
       (tr ++ startup_events a
           ++ pingInterface_events (arg_endpoint a) 5 probes
           ++ [EvLog Error ("Ping toward " ++ arg_endpoint a ++ " endpoint failed")]))
  = (Ret (router, None), w2) ->
  replaceRoute (arg_endpoint a) 24 (arg_wifi_if a) router
    (mkWorld (pending w2)
       (trace w2 ++ [EvLog Info ("Successfully connected to WiFi with SSID "
                                   ++ arg_wifi_ssid a)]))
  = (Ret (Some e), w3) ->
  main a (mkWorld (probes ++ rest) tr)
  = (pingInterface (arg_endpoint a) 5 ;; ret tt)
      (mkWorld (pending w3)
         (trace w3 ++ [EvLog Info ("Successfully changed default route to "
                                     ++ arg_wifi_if a)]))
  /\ (exit_status (fst (main a (mkWorld (probes ++ rest) tr))) = Some 0
      \/ exit_status (fst (main a (mkWorld (probes ++ rest) tr))) = None).
Proof.
  intros Hdown Hassoc Hroute.
  assert (Hmain : main a (mkWorld (probes ++ rest) tr)
    = (pingInterface (arg_endpoint a) 5 ;; ret tt)
        (mkWorld (pending w3)
           (trace w3 ++ [EvLog Info ("Successfully changed default route to "
                                       ++ arg_wifi_if a)]))).
  { rewrite (main_monitor_down a probes rest tr Hdown).
    unfold bind at 1. rewrite Hassoc. run_log.
    unfold bind at 1. rewrite Hroute. run_log.
    reflexivity. }
  split; [exact Hmain|].
  rewrite Hmain. unfold bind.
  destruct (pingInterface_outcome (arg_endpoint a) 5
              (mkWorld (pending w3)
                 (trace w3 ++ [EvLog Info ("Successfully changed default route to "
                                             ++ arg_wifi_if a)]))
              five_is_an_int) as [H|H];
    destruct (pingInterface _ _ _) as [o w4]; cbn [fst] in H; subst o;
    cbn; auto.
Qed.

(** C4, what the code does. The threshold of both monitor runs is the
    literal 5: [main] behaves the same whatever the retry count on the
    command line, and the retry count that it reads with [GetString] from
    the int flag is the empty string, with an error. With [--retry 3]
    and three unreachable probes, [main] is still probing, where a monitor
    with threshold 3 has returned Down. *)
Theorem main_ignores_retry :
  (forall wifi ssid password endpoint r1 r2 w,
     main (mkArgs wifi ssid password endpoint r1) w
     = main (mkArgs wifi ssid password endpoint r2) w)
  /\ (forall a, GetString (flags_of a) "retry"
                = (EmptyString,
                   Some "trying to get string value of flag of type int"%string))
  /\ fst (@main demo_runtime (mkArgs "wlan0" "home" "secret" "8.8.8.8" (Some 3))
                (start [ping_lost; ping_lost; ping_lost])) = Blocked
  /\ fst (@pingInterface demo_runtime "8.8.8.8" 3
                         (start [ping_lost; ping_lost; ping_lost])) = Ret (-1).
Proof.
  split; [|split; [|split]].
  - intros. reflexivity.
  - intros a. reflexivity.
  - vm_compute. reflexivity.
  - vm_compute. reflexivity.
Qed.
End Orchestrator.

Section Validation.
Context {RT : GoRuntime}.
Local Open Scope list_scope.

(** C7. For every endpoint text that [net.ParseIP] does not parse, such
    as ["999.999.999.999"], [replaceRoute] returns the validation error
    having only logged it: no command is run, so no route mutation. *)
Theorem replaceRoute_invalid_address_no_mutation :
  ParseIP "999.999.999.999" = []
  /\ forall ipv4 cidrMask ifname router w,
       ParseIP ipv4 = [] ->
       replaceRoute ipv4 cidrMask ifname router w
       = (Ret (Some ("invalid IP address: " ++ ipv4)%string),
          mkWorld (pending w)
                  (trace w ++ [EvLog Error ("invalid IP address: " ++ ipv4)%string]))
       /\ commands (trace (snd (replaceRoute ipv4 cidrMask ifname router w)))
          = commands (trace w).
Proof.
  split; [reflexivity|].
  intros ipv4 cidrMask ifname router w Hip.
  rewrite replaceRoute_unparsed by exact Hip. split; [reflexivity|].
  cbn [snd trace]. rewrite commands_app. cbn. apply app_nil_r.
Qed.
End Validation.

(** ** Further properties: the monitor *)

Section MonitorEdges.
Context {RT : GoRuntime}.
Local Open Scope list_scope.

Lemma only_pings_app endpoint ev1 ev2 :
  only_pings endpoint ev1 -> only_pings endpoint ev2 ->
  only_pings endpoint (ev1 ++ ev2).
Proof.
  unfold only_pings. intros H1 H2. rewrite commands_app.
  apply Forall_app. split; assumption.
Qed.

Lemma only_pings_probe_events endpoint retry :
  forall probes before, only_pings endpoint (probe_events endpoint retry before probes).
Proof.
  induction probes as [|r probes IH]; intros before; [constructor|].
  cbn [probe_events]. apply only_pings_app.
  - repeat constructor.
  - apply only_pings_app; [destruct (reachable r); constructor|apply IH].
Qed.

(** Whatever the threshold and the counter, the loop returns [-1] or blocks
    in a ping; it takes the answers in order and runs pings only. *)
Lemma pingInterface_loop_shape endpoint retry :
  forall fuel failures answers tr,
    exists events used,
      trace (snd (pingInterface_loop fuel endpoint retry failures
                                     (mkWorld answers tr))) = tr ++ events
      /\ only_pings endpoint events
      /\ answers = used ++ pending (snd (pingInterface_loop fuel endpoint retry
                                          failures (mkWorld answers tr)))
      /\ (fst (pingInterface_loop fuel endpoint retry failures
                                  (mkWorld answers tr)) = Ret (-1)
          \/ fst (pingInterface_loop fuel endpoint retry failures
                                     (mkWorld answers tr)) = Blocked).
Proof.
  induction fuel as [|fuel IH]; intros failures answers tr.
  - exists [], []. cbn. rewrite app_nil_r.
    repeat split; [constructor|right; reflexivity].
  - destruct answers as [|r answers].
    + rewrite pingInterface_loop_nil. cbn [fst snd trace pending].
      exists [EvSleep; EvExec (ping_argv endpoint)], [].
      repeat split; [repeat constructor|right; reflexivity].
    + rewrite pingInterface_loop_cons. cbn zeta.
      destruct (reachable r).
      * destruct (IH 0 answers (tr ++ [EvSleep; EvExec (ping_argv endpoint)]))
          as (events & used & Htr & Hp & Hused & Hout).
        exists ([EvSleep; EvExec (ping_argv endpoint)] ++ events), (r :: used).
        split; [rewrite Htr, <- app_assoc; reflexivity|].
        split; [apply only_pings_app; [repeat constructor|exact Hp]|].
        split; [cbn [app]; f_equal; exact Hused|exact Hout].
      * destruct (wrap_int int_size (failures + 1) >=? retry).
        -- cbn [fst snd trace pending].
           exists ([EvSleep; EvExec (ping_argv endpoint)]
                     ++ [EvLog Warn (failed_to_ping endpoint
                                       (wrap_int int_size (failures + 1)) retry)]),
             [r].
           split; [rewrite <- app_assoc; reflexivity|].
           split; [repeat constructor|]. split; [reflexivity|left; reflexivity].
        -- match goal with
           | |- context [pingInterface_loop fuel endpoint retry ?f (mkWorld answers ?t)] =>
               destruct (IH f answers t) as (events & used & Htr & Hp & Hused & Hout)
           end.
           exists ([EvSleep; EvExec (ping_argv endpoint)]
                     ++ [EvLog Warn (failed_to_ping endpoint
                                       (wrap_int int_size (failures + 1)) retry)]
                     ++ events),
             (r :: used).
           split; [rewrite Htr, <- !app_assoc; reflexivity|].
           split; [|split; [cbn [app]; f_equal; exact Hused|exact Hout]].
           apply only_pings_app; [repeat constructor|].
           apply only_pings_app; [repeat constructor|exact Hp].
Qed.


Lemma wrap_int_one : wrap_int int_size 1 = 1.
Proof. apply wrap_int_small. unfold min_int, max_int. destruct int_size; cbn; lia. Qed.

Lemma pingInterface_loop_low endpoint retry :
  retry <= 1 ->
  forall reach before lost rest fuel tr,
    forallb reachable reach = true -> reachable lost = false ->
    trailing_failures before = O ->
    (List.length (reach ++ lost :: rest) < fuel)%nat ->
    pingInterface_loop fuel endpoint retry 0 (mkWorld (reach ++ lost :: rest) tr)
    = (Ret (-1),
       mkWorld rest (tr ++ probe_events endpoint retry before (reach ++ [lost]))).
Proof.
  intros Hretry.
  induction reach as [|r reach IH]; intros before lost rest fuel tr Hreach Hlost Hb Hfuel.
  - destruct fuel as [|fuel]; [lia|].
    cbn [app]. rewrite pingInterface_loop_cons. cbn zeta. rewrite Hlost.
    change (0 + 1) with 1. rewrite wrap_int_one.
    replace (1 >=? retry) with true by (symmetry; apply Z.geb_le; lia).
    cbn [probe_events]. rewrite Hlost, trailing_failures_snoc, Hlost, Hb.
    cbn [app]. rewrite <- app_assoc. reflexivity.
  - destruct fuel as [|fuel]; [lia|].
    cbn [forallb] in Hreach. apply andb_prop in Hreach. destruct Hreach as [Hr Hreach].
    cbn [app]. rewrite pingInterface_loop_cons. cbn zeta. rewrite Hr.
    rewrite (IH (before ++ [r]) lost rest fuel); try assumption.
    + cbn [probe_events]. rewrite Hr. cbn [app]. rewrite <- app_assoc. reflexivity.
    + rewrite trailing_failures_snoc, Hr. reflexivity.
    + cbn [app List.length] in Hfuel. lia.
Qed.

(** X2. A threshold of 1, of zero or negative behaves as 1: the monitor
    returns Down at the first unreachable probe, after however many
    reachable ones, with a warning whose attempt number is 1. *)
Theorem pingInterface_low_threshold
        (endpoint : string) (retry : Z) (reach : list ExecResult)
        (lost : ExecResult) (rest : list ExecResult) (tr : list Event) :
  retry <= 1 ->
  forallb reachable reach = true -> reachable lost = false ->
  pingInterface endpoint retry (mkWorld (reach ++ lost :: rest) tr)
  = (Ret (-1),
     mkWorld rest
       (tr ++ [EvLog Info ("Pinging endpoint " ++ endpoint)%string; EvNotify]
           ++ flat_map (fun _ => [EvSleep; EvExec (ping_argv endpoint)]) reach
           ++ [EvSleep; EvExec (ping_argv endpoint);
               EvLog Warn (failed_to_ping endpoint 1 retry)])).
Proof.
  intros Hretry Hreach Hlost.
  rewrite pingInterface_start. cbn [pending trace].
  rewrite (pingInterface_loop_low endpoint retry Hretry reach [] lost rest);
    [|exact Hreach|exact Hlost|reflexivity|lia].
  rewrite <- app_assoc.
  assert (Hev : forall before, trailing_failures before = O ->
            probe_events endpoint retry before (reach ++ [lost])
            = flat_map (fun _ => [EvSleep; EvExec (ping_argv endpoint)]) reach
              ++ [EvSleep; EvExec (ping_argv endpoint);
                  EvLog Warn (failed_to_ping endpoint 1 retry)]).
  { clear rest tr. induction reach as [|r reach IH]; intros before Hb.
    - cbn [app probe_events flat_map]. rewrite Hlost, trailing_failures_snoc, Hlost, Hb.
      reflexivity.
    - cbn [forallb] in Hreach. apply andb_prop in Hreach. destruct Hreach as [Hr Hreach].
      cbn [app probe_events flat_map]. rewrite Hr. cbn [app].
      rewrite (IH Hreach (before ++ [r]));
        [reflexivity|rewrite trailing_failures_snoc, Hr; reflexivity]. }
  rewrite (Hev [] eq_refl). reflexivity.
Qed.
End MonitorEdges.

(** ** Further properties: addresses and routes *)

Lemma land_octet a m : octet a -> octet (Z.land a m).
Proof.
  intros Ha. unfold octet in *.
  assert (E : Z.land a m = Z.land a m mod 2 ^ 8).
  { rewrite <- Z.land_ones by lia.
    rewrite <- Z.land_assoc, (Z.land_comm m), Z.land_assoc.
    rewrite (Z.land_ones a) by lia. rewrite Z.mod_small; [reflexivity|].
    change (2 ^ 8) with 256. lia. }
  rewrite E. change (2 ^ 8) with 256.
  pose proof (Z.mod_pos_bound (Z.land a m) 256 ltac:(lia)). lia.
Qed.

Lemma land_255 a : octet a -> Z.land a 255 = a.
Proof.
  intros Ha. change 255 with (Z.ones 8). rewrite Z.land_ones by lia.
  apply Z.mod_small. unfold octet in Ha. change (2 ^ 8) with 256. lia.
Qed.

Lemma land_twice a m : Z.land (Z.land a m) m = Z.land a m.
Proof. rewrite <- Z.land_assoc, Z.land_diag. reflexivity. Qed.

Section RouteEdges.
Context {RT : GoRuntime}.
Local Open Scope list_scope.

Lemma route_cidr_dotted a b c d p :
  octet a -> octet b -> octet c -> octet d -> 0 <= p <= 32 ->
  route_cidr (ParseIP (dotted a b c d)) p
  = (match mask_bytes p with
     | [m3; m2; m1; m0] =>
         dotted (Z.land a m3) (Z.land b m2) (Z.land c m1) (Z.land d m0)
     | _ => EmptyString
     end ++ "/" ++ Itoa p)%string.
Proof.
  intros Ha Hb Hc Hd Hp. unfold route_cidr.
  rewrite ParseIP_dotted by assumption.
  rewrite CIDRMask_prefix by exact Hp. reflexivity.
Qed.

(** X3. The network that [replaceRoute] computes is a fixed point of the
    computation: for a dotted-quad endpoint and a prefix length in 0..32,
    the text of the network address, taken as the endpoint with the same
    prefix length, gives the same CIDR again. *)
Theorem route_cidr_idempotent (a b c d p : Z) :
  octet a -> octet b -> octet c -> octet d -> 0 <= p <= 32 ->
  let network := Mask (ParseIP (dotted a b c d)) (CIDRMask p 32) in
  route_cidr (ParseIP (IP_String network)) p
  = route_cidr (ParseIP (dotted a b c d)) p.
Proof.
  intros Ha Hb Hc Hd Hp. cbn zeta.
  rewrite route_cidr_dotted by assumption.
  rewrite ParseIP_dotted by assumption.
  rewrite CIDRMask_prefix by exact Hp. unfold mask_bytes.
  rewrite Mask_v4, IP_String_v4.
  rewrite route_cidr_dotted by (try apply land_octet; assumption).
  unfold mask_bytes. rewrite !land_twice. reflexivity.
Qed.

(** X4. The ends of the prefix range, and the prefix length that [Run]
    passes. For a dotted-quad endpoint [a.b.c.d]: prefix length 0 gives
    [0.0.0.0/0], prefix length 32 gives the endpoint itself, [a.b.c.d/32],
    and prefix length 24 gives [a.b.c.0/24]. *)
Theorem route_cidr_prefix_0_24_32 (a b c d : Z) :
  octet a -> octet b -> octet c -> octet d ->
  route_cidr (ParseIP (dotted a b c d)) 0 = "0.0.0.0/0"%string
  /\ route_cidr (ParseIP (dotted a b c d)) 24 = (dotted a b c 0 ++ "/24")%string
  /\ route_cidr (ParseIP (dotted a b c d)) 32 = (dotted a b c d ++ "/32")%string.
Proof.
  intros Ha Hb Hc Hd.
  rewrite !route_cidr_dotted by (assumption || lia).
  change (mask_bytes 0) with [0; 0; 0; 0].
  change (mask_bytes 24) with [255; 255; 255; 0].
  change (mask_bytes 32) with [255; 255; 255; 255].
  cbv beta iota.
  rewrite !Z.land_0_r, !land_255 by assumption.
  repeat split.
Qed.

Lemma CIDRMask_length p :
  List.length (CIDRMask p 32) = 4%nat \/ CIDRMask p 32 = [].
Proof.
  destruct (Z_lt_dec p 0) as [Hlt|Hge];
    [right; apply CIDRMask_out_of_range; lia|].
  destruct (Z_lt_dec 32 p) as [Hgt|Hle];
    [right; apply CIDRMask_out_of_range; lia|].
  left. rewrite CIDRMask_prefix by lia. reflexivity.
Qed.

Lemma Mask_ipv6 ip p :
  List.length ip = 16%nat ->
  bytes_eqb (firstn 12 ip) v4InV6Prefix = false ->
  Mask ip (CIDRMask p 32) = [].
Proof.
  intros Hlen Hv6. destruct (CIDRMask_length p) as [H4|Hnil].
  - destruct (CIDRMask p 32) as [|m3 [|m2 [|m1 [|m0 [|m rest]]]]];
      try discriminate H4.
    unfold Mask. cbn [List.length]. rewrite Hlen, Hv6. cbn. rewrite Hlen.
    reflexivity.
  - rewrite Hnil. apply Mask_nil_mask. destruct ip; [discriminate|discriminate].
Qed.

(** X5. An endpoint that [net.ParseIP] reads as an IPv6 address proper (16
    bytes that are not an IPv4-mapped address) has no network under the
    4-byte mask: whatever the prefix length, [replaceRoute] runs the route
    command on [<nil>/p]. *)
Theorem replaceRoute_ipv6_endpoint
        (ipv4 : string) (p : Z) (ifname router : string) (w : World) :
  List.length (ParseIP ipv4) = 16%nat ->
  bytes_eqb (firstn 12 (ParseIP ipv4)) v4InV6Prefix = false ->
  commands (trace (snd (replaceRoute ipv4 p ifname router w)))
  = commands (trace w)
    ++ [route_replace_argv ("<nil>/" ++ Itoa p)%string router ifname].
Proof.
  intros Hlen Hv6.
  rewrite replaceRoute_commands by (destruct (ParseIP ipv4); discriminate).
  unfold route_cidr. rewrite Mask_ipv6 by assumption. reflexivity.
Qed.
End RouteEdges.

Lemma str_app_assoc (a b c : string) : (a ++ b) ++ c = a ++ b ++ c.
Proof. induction a as [|x a IH]; cbn; [reflexivity|rewrite IH; reflexivity]. Qed.

Lemma str_app_nil_r (a : string) : a ++ EmptyString = a.
Proof. induction a as [|x a IH]; cbn; [reflexivity|rewrite IH; reflexivity]. Qed.

Lemma digit_facts c :
  is_digit c = true ->
  0 <= digit_of c <= 9
  /\ Itoa (digit_of c) = String c EmptyString
  /\ ascii_of_nat (Z.to_nat (48 + digit_of c)) = c
  /\ Ascii.eqb c "." = false.
Proof.
  destruct c as [[] [] [] [] [] [] [] []]; intros H; try discriminate H;
    vm_compute; repeat split; discriminate.
Qed.

Lemma digit_appends_table :
  forallb (fun v => forallb (fun d => digit_appends (Z.of_nat v) (Z.of_nat d))
                            (seq 0 10))
          (seq 1 25) = true.
Proof. vm_compute. reflexivity. Qed.

Lemma Itoa_append_digit v c :
  1 <= v -> is_digit c = true -> v * 10 + digit_of c <= 255 ->
  Itoa (v * 10 + digit_of c) = Itoa v ++ String c EmptyString.
Proof.
  intros Hv Hc Hle. destruct (digit_facts c Hc) as (Hd & _ & Hchar & _).
  pose proof digit_appends_table as H. rewrite forallb_forall in H.
  specialize (H (Z.to_nat v)). rewrite forallb_forall in H.
  specialize (H ltac:(apply in_seq; lia) (Z.to_nat (digit_of c))
                ltac:(apply in_seq; lia)).
  rewrite !Z2Nat.id in H by lia. unfold digit_appends in H.
  apply String.eqb_eq in H. rewrite H, Hchar. reflexivity.
Qed.

Lemma firstn_set_field fields pos v :
  (pos < List.length fields)%nat ->
  firstn (S pos) (set_field fields pos v) = (firstn pos fields ++ [v])%list.
Proof.
  revert pos. induction fields as [|f fields IH]; intros pos Hpos; [cbn in Hpos; lia|].
  destruct pos as [|pos]; [reflexivity|].
  cbn [set_field]. cbn [firstn app]. f_equal. apply IH. cbn in Hpos. lia.
Qed.

Lemma set_field_length fields pos v :
  List.length (set_field fields pos v) = List.length fields.
Proof.
  revert pos. induction fields as [|f fields IH]; intros pos; [destruct pos; reflexivity|].
  destruct pos; cbn; [reflexivity|rewrite IH; reflexivity].
Qed.

(** What [parseIPv4_loop] accepts is the rest of a dotted quad. *)
Lemma parseIPv4_loop_accepts :
  forall s cur prev fields val pos digLen out,
    parseIPv4_loop s prev fields val pos digLen = Some out ->
    List.length fields = 4%nat -> (pos <= 3)%nat ->
    field_state cur prev val digLen s ->
    exists v tail,
      out = (firstn pos fields ++ v :: tail)%list
      /\ List.length tail = (3 - pos)%nat
      /\ octet v /\ Forall octet tail
      /\ cur ++ s = Itoa v ++ dot_fields tail.
Proof.
  induction s as [|c s IH]; intros cur prev fields val pos digLen out Hrun Hlen Hpos Hst.
  - cbn [parseIPv4_loop] in Hrun.
    destruct (pos <? 3)%nat eqn:Hp; [discriminate Hrun|].
    apply Nat.ltb_ge in Hp. assert (pos = 3%nat) by lia. subst pos.
    destruct Hst as [_ _ _ _ Hne|c0 Hcur Hval _ _ _ _]; [congruence|].
    inversion Hrun; subst out. rewrite Z.mod_small by lia.
    exists val, []. split.
    { destruct fields as [|f0 [|f1 [|f2 [|f3 [|f4 fields]]]]]; try discriminate Hlen.
      reflexivity. }
    split; [reflexivity|]. split; [exact Hval|].
    split; [constructor|rewrite Hcur; reflexivity].
  - cbn [parseIPv4_loop] in Hrun.
    destruct (is_digit c) eqn:Hc.
    + destruct (digit_facts c Hc) as (Hd & Htext & _ & _).
      fold (digit_of c) in Hrun.
      destruct Hst as [Hcur Hval Hdl _ _|c0 Hcur Hval Hdl Hzero _ _].
      * subst val digLen cur. cbn [Z.eqb andb] in Hrun.
        change (0 * 10 + Z.of_nat (nat_of_ascii c) - 48) with (digit_of c) in Hrun.
        destruct (digit_of c >? 255) eqn:Hgt; [discriminate Hrun|].
        apply (IH (String c EmptyString)) in Hrun; [|exact Hlen|exact Hpos|].
        -- exact Hrun.
        -- apply (field_digits _ _ _ _ _ c);
             [symmetry; exact Htext|lia|lia|intros; reflexivity|reflexivity|exact Hc].
      * destruct ((digLen =? 1) && (val =? 0)) eqn:Hlead; [discriminate Hrun|].
        assert (Hv1 : 1 <= val).
        { destruct (Z.eq_dec val 0) as [E|E]; [|lia].
          rewrite (Hzero E), E in Hlead. discriminate Hlead. }
        replace (val * 10 + Z.of_nat (nat_of_ascii c) - 48)
          with (val * 10 + digit_of c) in Hrun by (unfold digit_of; lia).
        destruct (val * 10 + digit_of c >? 255) eqn:Hgt; [discriminate Hrun|].
        assert (Hle : val * 10 + digit_of c <= 255) by lia.
        apply (IH (cur ++ String c EmptyString)) in Hrun; [|exact Hlen|exact Hpos|].
        -- rewrite str_app_assoc in Hrun. exact Hrun.
        -- apply (field_digits _ _ _ _ _ c);
             [rewrite Hcur; symmetry; apply Itoa_append_digit; assumption
             |lia|lia|intros; lia|reflexivity|exact Hc].
    + destruct (Ascii.eqb c ".") eqn:Hdot; [|discriminate Hrun].
      apply Ascii.eqb_eq in Hdot. subst c.
      destruct Hst as [_ _ _ Hprev _|c0 Hcur Hval _ _ Hprev Hc0].
      * destruct Hprev as [-> | ->]; destruct s; cbn in Hrun; discriminate Hrun.
      * subst prev. destruct (digit_facts c0 Hc0) as (_ & _ & _ & Hnd).
        cbn [orb is_dot] in Hrun. rewrite Hnd in Hrun.
        destruct s as [|c1 s1]; [discriminate Hrun|]. cbn [orb] in Hrun.
        destruct (pos =? 3)%nat eqn:Hp3; [discriminate Hrun|].
        apply Nat.eqb_neq in Hp3. rewrite Z.mod_small in Hrun by lia.
        apply (IH EmptyString) in Hrun;
          [|rewrite set_field_length; exact Hlen|lia|].
        -- destruct Hrun as (v & tail & Hout & Htl & Hv & Htail & Htext).
           exists val, (v :: tail).
           rewrite firstn_set_field in Hout by lia.
           split; [rewrite Hout, <- app_assoc; reflexivity|].
           split; [cbn [List.length]; lia|].
           split; [assumption|]. split; [constructor; assumption|].
           cbn [dot_fields]. cbn [append] in Htext. rewrite Hcur.
           cbn [append]. rewrite Htext. reflexivity.
        -- apply field_start; try reflexivity; [right; reflexivity|discriminate].
Qed.

(** The texts that [parseIPv4] accepts are the dotted quads of four octets
    in decimal without leading zeros, and it gives the octets. *)
Lemma parseIPv4_canonical s out :
  parseIPv4 s = Some out ->
  exists a b c d,
    out = [a; b; c; d] /\ octet a /\ octet b /\ octet c /\ octet d
    /\ s = dotted a b c d.
Proof.
  intros Hrun. unfold parseIPv4 in Hrun.
  destruct s as [|c0 s0]; [discriminate Hrun|].
  apply (parseIPv4_loop_accepts _ EmptyString) in Hrun;
    [|reflexivity|lia|apply field_start; try reflexivity; [left; reflexivity|discriminate]].
  destruct Hrun as (a & tail & Hout & Htl & Ha & Htail & Htext).
  destruct tail as [|b [|c [|d [|e tail]]]]; try discriminate Htl.
  inversion Htail as [|? ? Hb Ht1]; subst.
  inversion Ht1 as [|? ? Hc Ht2]; subst.
  inversion Ht2 as [|? ? Hd _]; subst.
  exists a, b, c, d.
  split; [reflexivity|]. do 4 (split; [assumption|]).
  cbn [append] in Htext. unfold dotted.
  etransitivity; [exact Htext|]. cbn [dot_fields].
  rewrite str_app_nil_r. reflexivity.
Qed.

Section Canonical.
Context {RT : GoRuntime}.
Local Open Scope list_scope.

(** X6. Of the endpoint texts that do not go to the IPv6 parser (no colon
    before the first dot), [replaceRoute] takes the dotted quads of four
    octets in decimal without leading zeros, and only those: any other such
    text fails validation, with no command run. *)
Theorem replaceRoute_takes_dotted_quads_only
        (ipv4 : string) (p : Z) (ifname router : string) (w : World) :
  addr_kind ipv4 <> KindV6 ->
  (exists a b c d,
     octet a /\ octet b /\ octet c /\ octet d
     /\ ipv4 = dotted a b c d
     /\ ParseIP ipv4 = v4InV6Prefix ++ [a; b; c; d])
  \/ replaceRoute ipv4 p ifname router w
     = (Ret (Some ("invalid IP address: " ++ ipv4)%string),
        mkWorld (pending w)
                (trace w ++ [EvLog Error ("invalid IP address: " ++ ipv4)%string])).
Proof.
  intros Hkind.
  destruct (parseIPv4 ipv4) as [out|] eqn:Hparse.
  - left. destruct (parseIPv4_canonical ipv4 out Hparse)
      as (a & b & c & d & -> & Ha & Hb & Hc & Hd & ->).
    exists a, b, c, d.
    do 4 (split; [assumption|]). split; [reflexivity|].
    apply ParseIP_dotted; assumption.
  - right. apply replaceRoute_unparsed. unfold ParseIP.
    destruct (addr_kind ipv4); [rewrite Hparse; reflexivity|congruence|reflexivity].
Qed.
End Canonical.

(** ** Further properties: the texts of the commands *)

Lemma Split_no_sep s sep :
  forall tok, In tok (Split s sep) -> has_char sep tok = false.
Proof.
  induction s as [|c s IH]; intros tok Hin.
  - cbn in Hin. destruct Hin as [<-|[]]. reflexivity.
  - cbn [Split] in Hin. destruct (Ascii.eqb c sep) eqn:Hc.
    + destruct Hin as [<-|Hin]; [reflexivity|apply IH; exact Hin].
    + destruct (Split s sep) as [|t ts] eqn:Hs.
      * destruct Hin as [<-|[]]. cbn. rewrite Hc. reflexivity.
      * destruct Hin as [<-|Hin].
        -- cbn [has_char]. rewrite Hc. apply IH. left. reflexivity.
        -- apply IH. right. exact Hin.
Qed.

Lemma Split_nonempty s sep : Split s sep <> [].
Proof.
  destruct s as [|c s]; [discriminate|]. cbn [Split].
  destruct (Ascii.eqb c sep); [discriminate|].
  destruct (Split s sep); discriminate.
Qed.

(** A text without the separator, then the separator: the text is the
    first token. *)
Lemma Split_token t sep rest :
  has_char sep t = false ->
  Split (t ++ String sep rest) sep = t :: Split rest sep.
Proof.
  induction t as [|c t IH]; intros Ht.
  - cbn [append Split]. rewrite Ascii.eqb_refl. reflexivity.
  - cbn [has_char] in Ht. apply orb_false_elim in Ht. destruct Ht as [Hc Ht].
    cbn [append Split]. rewrite Hc, (IH Ht). reflexivity.
Qed.

(** A text without the separator is its own and only token. *)
Lemma Split_last t sep : has_char sep t = false -> Split t sep = [t].
Proof.
  induction t as [|c t IH]; intros Ht; [reflexivity|].
  cbn [has_char] in Ht. apply orb_false_elim in Ht. destruct Ht as [Hc Ht].
  cbn [Split]. rewrite Hc, (IH Ht). reflexivity.
Qed.

Lemma substring_chars c :
  forall s n m, has_char c (substring n m s) = true -> has_char c s = true.
Proof.
  induction s as [|x s IH]; intros n m H.
  - destruct n, m; cbn in H; discriminate H.
  - destruct n as [|n].
    + destruct m as [|m]; [cbn in H; discriminate H|].
      cbn [substring has_char] in *. apply orb_true_iff in H.
      apply orb_true_iff. destruct H as [H|H]; [left; exact H|right; eapply IH; exact H].
    + cbn [substring] in H. cbn [has_char]. apply orb_true_iff. right.
      eapply IH. exact H.
Qed.

Lemma TrimPrefix_chars c s prefix :
  has_char c s = false -> has_char c (TrimPrefix s prefix) = false.
Proof.
  intros Hs. unfold TrimPrefix. destruct (HasPrefix s prefix); [|exact Hs].
  destruct (has_char c (substring _ _ s)) eqn:H; [|reflexivity].
  apply substring_chars in H. congruence.
Qed.

Lemma HasSuffix_first_char c suffix s :
  HasSuffix s (String c suffix) = true -> has_char c s = true.
Proof.
  unfold HasSuffix. intros H. apply andb_prop in H. destruct H as [_ H].
  apply String.eqb_eq in H.
  eapply substring_chars. rewrite H. cbn. rewrite Ascii.eqb_refl. reflexivity.
Qed.

Section ProbeText.
Context {RT : GoRuntime}.
Local Open Scope list_scope.

Lemma TrimSuffix_ms_no_space part :
  has_char space part = false ->
  TrimSuffix (TrimPrefix part "time=") " ms" = TrimPrefix part "time=".
Proof.
  intros Hsp. unfold TrimSuffix.
  destruct (HasSuffix (TrimPrefix part "time=") " ms") eqn:Hs; [|reflexivity].
  apply HasSuffix_first_char in Hs.
  pose proof (TrimPrefix_chars space part "time=" Hsp) as Hn.
  unfold space in Hn. congruence.
Qed.

(** X7. The time text that [pingIP] hands to the float parser is what
    follows [time=] in the token: a token of a line split at the spaces
    holds no space, so trimming the suffix [" ms"] never removes
    anything. *)
Theorem pingIP_time_text (line part : string) :
  In part (Split line space) ->
  TrimSuffix (TrimPrefix part "time=") " ms" = TrimPrefix part "time=".
Proof.
  intros Hin. apply TrimSuffix_ms_no_space.
  apply (Split_no_sep line space). exact Hin.
Qed.

Lemma pingIP_parts_found parts v :
  (forall part, In part parts -> has_char space part = false) ->
  pingIP_parts parts = Some v -> v <> -1 ->
  exists part,
    In part parts /\ HasPrefix part "time=" = true
    /\ ParseFloat_int (TrimPrefix part "time=") = Some v.
Proof.
  induction parts as [|part parts IH]; intros Hsp Hrun Hv; [discriminate Hrun|].
  cbn [pingIP_parts] in Hrun.
  destruct (HasPrefix part "time=") eqn:Hp.
  - cbn zeta in Hrun.
    rewrite (TrimSuffix_ms_no_space part (Hsp part (or_introl eq_refl))) in Hrun.
    destruct (ParseFloat_int (TrimPrefix part "time=")) as [t|] eqn:Hf;
      inversion Hrun; subst; [|congruence].
    exists part. repeat split; [left; reflexivity|exact Hp|exact Hf].
  - destruct (IH (fun q Hq => Hsp q (or_intror Hq)) Hrun Hv) as (q & Hq & Hpre & Hf).
    exists q. repeat split; [right; exact Hq|exact Hpre|exact Hf].
Qed.

Lemma pingIP_lines_found lines v :
  pingIP_lines lines = v -> v <> -1 ->
  exists line part,
    In line lines /\ In part (Split line space)
    /\ HasPrefix part "time=" = true
    /\ ParseFloat_int (TrimPrefix part "time=") = Some v.
Proof.
  induction lines as [|line lines IH]; intros Hrun Hv; [cbn in Hrun; congruence|].
  cbn [pingIP_lines] in Hrun.
  assert (Hnext : pingIP_lines lines = v ->
            exists line' part,
              In line' (line :: lines) /\ In part (Split line' space)
              /\ HasPrefix part "time=" = true
              /\ ParseFloat_int (TrimPrefix part "time=") = Some v).
  { intros H. destruct (IH H Hv) as (l & q & Hl & Hq).
    exists l, q. split; [right; exact Hl|exact Hq]. }
  destruct (Contains line "time="); [|apply Hnext; exact Hrun].
  destruct (pingIP_parts (Split line space)) as [t|] eqn:Hparts;
    [|apply Hnext; exact Hrun].
  subst t.
  destruct (pingIP_parts_found _ v (Split_no_sep line space) Hparts Hv)
    as (q & Hq & Hpre & Hf).
  exists line, q. repeat split; [left; reflexivity|exact Hq|exact Hpre|exact Hf].
Qed.

(** X8. [pingIP] reports a response time (anything but [-1]) only on
    evidence: the ping command exited without an error, its output has the
    text that marks one reply, and some space-separated token of some line
    of the output starts with [time=] and goes on with a text that the
    float parser reads as that response time. *)
Theorem pingIP_reachable_evidence (received : string) (r : ExecResult) (v : Z) :
  pingIP_result received r = v -> v <> -1 ->
  err r = None
  /\ Contains (output r) received = true
  /\ exists line part,
       In line (Split (output r) newline) /\ In part (Split line space)
       /\ HasPrefix part "time=" = true
       /\ ParseFloat_int (TrimPrefix part "time=") = Some v.
Proof.
  unfold pingIP_result. intros Hrun Hv.
  destruct (err r); [congruence|]. split; [reflexivity|].
  cbn zeta in Hrun.
  destruct (Contains (output r) received); [|cbn in Hrun; congruence].
  split; [reflexivity|]. cbn [negb] in Hrun.
  apply pingIP_lines_found; assumption.
Qed.

(** X9. The gateway that the polling loop takes out of the answer of the
    route query is the text between the second and the third space of the
    output, or from the second space to the end of the output when there is
    no third space (a final newline included); the first two tokens are not
    looked at. The gateway taken never holds a space. *)
Theorem gateway_is_text_after_second_space (t1 t2 gw : string) :
  has_char space t1 = false -> has_char space t2 = false ->
  has_char space gw = false ->
  (forall rest w,
     third_token (t1 ++ " " ++ t2 ++ " " ++ gw ++ " " ++ rest)%string w
     = (Ret gw, w))
  /\ (forall w, third_token (t1 ++ " " ++ t2 ++ " " ++ gw)%string w = (Ret gw, w))
  /\ (forall q g, gateway_of q = Some g -> has_char space g = false).
Proof.
  intros H1 H2 H3.
  split; [|split].
  - intros rest w. unfold third_token. cbn [append].
    change (String " " (t2 ++ String " " (gw ++ String " " rest)))
      with (String space (t2 ++ String space (gw ++ String space rest))).
    rewrite (Split_token t1 space _ H1), (Split_token t2 space _ H2),
      (Split_token gw space _ H3).
    reflexivity.
  - intros w. unfold third_token. cbn [append].
    change (String " " (t2 ++ String " " gw))
      with (String space (t2 ++ String space gw)).
    rewrite (Split_token t1 space _ H1), (Split_token t2 space _ H2),
      (Split_last gw space H3).
    reflexivity.
  - intros q g Hg. unfold gateway_of in Hg. apply nth_error_In in Hg.
    apply (Split_no_sep _ _ _ Hg).
Qed.
End ProbeText.

(** ** Further properties: the failover *)

(** A log line at the head of a program goes to the trace. *)
Ltac step_log :=
  unfold log at 1; unfold emit; unfold bind at 1; cbn [pending trace].

Section Failover.
Context {RT : GoRuntime}.
Local Open Scope list_scope.

Lemma only_pings_no_route endpoint events :
  only_pings endpoint events -> route_mutations events = [].
Proof.
  unfold only_pings, route_mutations. intros H.
  induction H as [|argv argvs Hargv _ IH]; [reflexivity|].
  cbn [filter]. rewrite Hargv. cbn. exact IH.
Qed.

Lemma pingInterface_route_mutations endpoint retry w :
  route_mutations (trace (snd (pingInterface endpoint retry w)))
  = route_mutations (trace w).
Proof.
  rewrite pingInterface_start.
  destruct (pingInterface_loop_shape endpoint retry
              (S (List.length (pending w))) 0 (pending w)
              (trace w ++ [EvLog Info ("Pinging endpoint " ++ endpoint)%string;
                           EvNotify]))
    as (events & used & Htr & Hp & _ & _).
  rewrite Htr, !route_mutations_app, (only_pings_no_route endpoint events Hp).
  cbn. rewrite !app_nil_r. reflexivity.
Qed.

Lemma pingInterface_ret_or_blocked endpoint retry w :
  fst (pingInterface endpoint retry w) = Ret (-1)
  \/ fst (pingInterface endpoint retry w) = Blocked.
Proof.
  rewrite pingInterface_start.
  destruct (pingInterface_loop_shape endpoint retry
              (S (List.length (pending w))) 0 (pending w)
              (trace w ++ [EvLog Info ("Pinging endpoint " ++ endpoint)%string;
                           EvNotify]))
    as (events & used & _ & _ & _ & Hout).
  exact Hout.
Qed.

(** The two runs of the monitor: Down after the probes at whose last the
    trailing run first reaches the threshold, or still probing. *)
Lemma pingInterface_cases endpoint t answers tr :
  1 <= t <= max_int int_size ->
  (exists probes rest,
     answers = probes ++ rest
     /\ first_reach t probes (List.length probes)
     /\ pingInterface endpoint t (mkWorld answers tr)
        = (Ret (-1), mkWorld rest (tr ++ pingInterface_events endpoint t probes)))
  \/ ((forall n, ~ first_reach t answers n)
      /\ pingInterface endpoint t (mkWorld answers tr)
         = (Blocked,
            mkWorld [] (tr ++ pingInterface_events endpoint t answers
                           ++ [EvSleep; EvExec (ping_argv endpoint)]))).
Proof.
  intros Ht.
  assert (H0 : Z.of_nat (trailing_failures []) < t) by (cbn; lia).
  destruct (reach_from_dec t answers [] H0) as [(n & Hn)|Hall].
  - left. exists (firstn n answers), (skipn n answers).
    split; [symmetry; apply firstn_skipn|].
    apply first_reach_from in Hn; [|lia].
    assert (Hfirst : first_reach t (firstn n answers)
                                 (List.length (firstn n answers))).
    { destruct Hn as (Hle & Heq & Hlt).
      rewrite length_firstn, Nat.min_l by exact Hle.
      split; [rewrite length_firstn; lia|].
      split; [rewrite firstn_firstn, Nat.min_id; exact Heq|].
      intros m Hm. rewrite firstn_firstn, Nat.min_l by lia. apply Hlt. exact Hm. }
    split; [exact Hfirst|].
    rewrite <- (firstn_skipn n answers) at 1.
    apply pingInterface_down_after; assumption.
  - right. split.
    + intros n Hn. apply first_reach_from in Hn; [|lia].
      destruct Hn as (Hn & Heq & _). specialize (Hall n Hn). cbn [app] in *. lia.
    + rewrite pingInterface_start. cbn [pending trace].
      change 0 with (Z.of_nat (trailing_failures [])).
      rewrite (pingInterface_loop_blocked endpoint t Ht); [|lia|exact H0|exact Hall].
      unfold pingInterface_events. rewrite <- !app_assoc. reflexivity.
Qed.

(** [Run] while the first monitor is still probing. *)
Lemma main_monitor_blocked (a : Args) answers tr w1 :
  pingInterface (arg_endpoint a) 5 (mkWorld answers (tr ++ startup_events a))
  = (Blocked, w1) ->
  main a (mkWorld answers tr) = (Blocked, w1).
Proof.
  intros Hmon. unfold main, Run.
  change (fst (GetString (flags_of a) "wifi-if")) with (arg_wifi_if a).
  change (fst (GetString (flags_of a) "wifi-ssid")) with (arg_wifi_ssid a).
  change (fst (GetString (flags_of a) "wifi-password")) with (arg_wifi_password a).
  change (fst (GetString (flags_of a) "endpoint")) with (arg_endpoint a).
  change (fst (GetString (flags_of a) "retry")) with EmptyString.
  do 7 step_log.
  unfold bind at 1.
  change ("- Max retry: " ++ EmptyString)%string with "- Max retry: ".
  unfold startup_events in Hmon. rewrite <- !app_assoc. cbn [app].
  rewrite Hmon. reflexivity.
Qed.

(** X10. No failover while the endpoint answers often enough: as long as
    the trailing run of unreachable probes has not reached 5, [main] is
    still probing, and all the commands it has run are pings of the
    endpoint: it has not touched the WiFi interface or the routes. *)
Theorem main_no_failover_below_five_failures
        (a : Args) (answers : list ExecResult) (tr : list Event) :
  (forall n, ~ first_reach 5 answers n) ->
  main a (mkWorld answers tr)
  = (Blocked,
     mkWorld [] (tr ++ startup_events a
                    ++ pingInterface_events (arg_endpoint a) 5 answers
                    ++ [EvSleep; EvExec (ping_argv (arg_endpoint a))]))
  /\ only_pings (arg_endpoint a)
       (startup_events a ++ pingInterface_events (arg_endpoint a) 5 answers
          ++ [EvSleep; EvExec (ping_argv (arg_endpoint a))]).
Proof.
  intros Hnone. split.
  - apply main_monitor_blocked.
    destruct (pingInterface_cases (arg_endpoint a) 5 answers
                (tr ++ startup_events a) five_is_an_int)
      as [(probes & rest & -> & Hdown & _)|[_ Hrun]].
    + exfalso. apply (Hnone (List.length probes)).
      destruct Hdown as (_ & Heq & Hlt).
      assert (Hcut : forall m, (m <= List.length probes)%nat ->
                firstn m (probes ++ rest) = firstn m probes).
      { intros m Hm. rewrite firstn_app.
        replace (m - List.length probes)%nat with O by lia.
        cbn [firstn]. apply app_nil_r. }
      split; [rewrite length_app; lia|].
      split; [rewrite Hcut by lia; exact Heq|].
      intros m Hm. rewrite Hcut by lia. apply Hlt. exact Hm.
    + rewrite Hrun, <- app_assoc. reflexivity.
  - apply only_pings_app; [constructor|].
    apply only_pings_app; [|repeat constructor].
    unfold pingInterface_events. apply only_pings_app; [constructor|].
    apply only_pings_probe_events.
Qed.
End Failover.

Section AssociatorEdges.
Context {RT : GoRuntime}.
Local Open Scope list_scope.




(** X12. The polling has no bound: after any number of iterations that
    observed a gateway and found it unreachable, [connectToWiFi] has not
    returned and has not failed; it has slept and sent the next route
    query. *)
Theorem connectToWiFi_keeps_polling
        (ifwifi bssid password : string) (join : ExecResult)
        (polls : list ExecResult) (before tr : list Event) :
  err join = None ->
  unreachable_polls ifwifi polls before ->
  connectToWiFi ifwifi bssid password (mkWorld (join :: polls) tr)
  = (Blocked,
     mkWorld [] (tr ++ [EvExec (nmcli_argv ifwifi bssid password);
                        EvLog Info (output join)]
                    ++ before ++ [EvSleep; EvExec (query_argv ifwifi)])).
Proof.
  intros Hj Hpolls.
  rewrite connectToWiFi_joined by exact Hj.
  rewrite <- (app_nil_r polls).
  rewrite (polling_skips ifwifi polls before Hpolls).
  unfold for_ever. cbn [pending List.length].
  rewrite connectToWiFi_poll_step. rewrite <- !app_assoc. reflexivity.
Qed.

(** The polling loop of the [iwconfig] version returns nil whatever ends
    it. *)
Lemma MainGo_polling_returns_nil ifwifi :
  forall fuel answers tr e w',
    MainGo.connectToWiFi_poll fuel ifwifi (mkWorld answers tr) = (Ret e, w') ->
    e = None.
Proof.
  induction fuel as [|fuel IH]; intros answers tr e w' H; [discriminate H|].
  cbn [MainGo.connectToWiFi_poll] in H.
  unfold Sleep, log, emit, CombinedOutput, third_token, MainGo.pingIP,
    pingIP_with, bind in H.
  cbn [pending trace] in H.
  destruct answers as [|q answers]; [discriminate H|].
  destruct (err q); [inversion H; reflexivity|].
  destruct (nth_error (Split (output q) space) 2); [|discriminate H].
  unfold ret, CombinedOutput, bind in H. cbn [pending trace] in H.
  destruct answers as [|p answers]; [discriminate H|].
  destruct (negb (pingIP_result "1 packets received" p =? -1));
    [inversion H; reflexivity|].
  eapply IH. exact H.
Qed.
(** X13. In the [iwconfig] version, [connectToWiFi] runs the three set-up
    commands in order (set the network name, set the key, run the DHCP
    client) and stops at the first that fails, returning its error without
    running the rest; it starts polling only when the three succeeded, and
    the polling never gives an error: an error returned is the error of one
    of the three set-up commands, those before it having succeeded. *)
Theorem MainGo_connectToWiFi_setup
        (ifwifi bssid password : string) (tr : list Event) :
  (forall r1 rest e,
     err r1 = Some e ->
     MainGo.connectToWiFi ifwifi bssid password (mkWorld (r1 :: rest) tr)
     = (Ret (Some e), mkWorld rest (tr ++ [EvExec ["iwconfig"; ifwifi; "essid"; bssid]])))
  /\ (forall r1 r2 rest e,
        err r1 = None -> err r2 = Some e ->
        MainGo.connectToWiFi ifwifi bssid password (mkWorld (r1 :: r2 :: rest) tr)
        = (Ret (Some e),
           mkWorld rest (tr ++ [EvExec ["iwconfig"; ifwifi; "essid"; bssid];
                                EvLog Info (output r1);
                                EvExec ["iwconfig"; ifwifi; "key"; password]])))
  /\ (forall r1 r2 r3 rest e,
        err r1 = None -> err r2 = None -> err r3 = Some e ->
        MainGo.connectToWiFi ifwifi bssid password
                             (mkWorld (r1 :: r2 :: r3 :: rest) tr)
        = (Ret (Some e),
           mkWorld rest (tr ++ [EvExec ["iwconfig"; ifwifi; "essid"; bssid];
                                EvLog Info (output r1);
                                EvExec ["iwconfig"; ifwifi; "key"; password];
                                EvLog Info (output r2);
                                EvExec ["dhclient"; ifwifi]])))
  /\ (forall r1 r2 r3 rest,
        err r1 = None -> err r2 = None -> err r3 = None ->
        MainGo.connectToWiFi ifwifi bssid password
                             (mkWorld (r1 :: r2 :: r3 :: rest) tr)
        = for_ever (fun fuel => MainGo.connectToWiFi_poll fuel ifwifi)
            (mkWorld rest (tr ++ [EvExec ["iwconfig"; ifwifi; "essid"; bssid];
                                  EvLog Info (output r1);
                                  EvExec ["iwconfig"; ifwifi; "key"; password];
                                  EvLog Info (output r2);
                                  EvExec ["dhclient"; ifwifi];
                                  EvLog Info (output r3)])))
  /\ (forall answers e w',
        MainGo.connectToWiFi ifwifi bssid password (mkWorld answers tr)
        = (Ret (Some e), w') ->
        exists done r,
          answers = done ++ r :: pending w'
          /\ (List.length done < 3)%nat
          /\ Forall (fun x => err x = None) done
          /\ err r = Some e).
Proof.
  split; [|split; [|split; [|split]]].
  - intros r1 rest e H1.
    unfold MainGo.connectToWiFi, CombinedOutput, bind. cbn [pending trace].
    rewrite H1. reflexivity.
  - intros r1 r2 rest e H1 H2.
    unfold MainGo.connectToWiFi, CombinedOutput, log, emit, bind.
    cbn [pending trace]. rewrite H1. cbn [pending trace]. rewrite H2.
    rewrite <- !app_assoc. reflexivity.
  - intros r1 r2 r3 rest e H1 H2 H3.
    unfold MainGo.connectToWiFi, CombinedOutput, log, emit, bind.
    cbn [pending trace]. rewrite H1. cbn [pending trace]. rewrite H2.
    cbn [pending trace]. rewrite H3.
    rewrite <- !app_assoc. reflexivity.
  - intros r1 r2 r3 rest H1 H2 H3.
    unfold MainGo.connectToWiFi, CombinedOutput, log, emit, bind.
    cbn [pending trace]. rewrite H1. cbn [pending trace]. rewrite H2.
    cbn [pending trace]. rewrite H3. cbn [pending trace].
    rewrite <- !app_assoc. reflexivity.
  - intros answers e w' H.
    unfold MainGo.connectToWiFi, CombinedOutput, log, emit, bind in H.
    cbn [pending trace] in H.
    destruct answers as [|r1 answers]; [discriminate H|].
    destruct (err r1) as [e1|] eqn:H1.
    { inversion H; subst. exists [], r1. cbn [pending].
      repeat split; [cbn; lia|constructor|exact H1]. }
    cbn [pending trace] in H.
    destruct answers as [|r2 answers]; [discriminate H|].
    destruct (err r2) as [e2|] eqn:H2.
    { inversion H; subst. exists [r1], r2. cbn [pending].
      repeat split; [cbn; lia|repeat constructor; exact H1|exact H2]. }
    cbn [pending trace] in H.
    destruct answers as [|r3 answers]; [discriminate H|].
    destruct (err r3) as [e3|] eqn:H3.
    { inversion H; subst. exists [r1; r2], r3. cbn [pending].
      repeat split; [cbn; lia|repeat constructor; assumption|exact H3]. }
    cbn [pending trace] in H. unfold for_ever in H.
    apply MainGo_polling_returns_nil in H. discriminate H.
Qed.

End AssociatorEdges.

Section EndToEnd.
Context {RT : GoRuntime}.
Local Open Scope list_scope.

Lemma main_associated (a : Args) probes rest tr gw w2 :
  first_reach 5 probes (List.length probes) ->
  connectToWiFi (arg_wifi_if a) (arg_wifi_ssid a) (arg_wifi_password a)
                (mkWorld rest (tr ++ monitor_down_events a probes))
  = (Ret (gw, None), w2) ->
  main a (mkWorld (probes ++ rest) tr)
  = route_phase a gw
      (mkWorld (pending w2)
         (trace w2 ++ [EvLog Info ("Successfully connected to WiFi with SSID "
                                     ++ arg_wifi_ssid a)%string])).
Proof.
  intros Hdown Hassoc.
  rewrite (main_monitor_down a probes rest tr Hdown).
  unfold bind at 1. unfold monitor_down_events in Hassoc. rewrite Hassoc.
  step_log. reflexivity.
Qed.


Lemma route_phase_unparsed (a : Args) router w :
  ParseIP (arg_endpoint a) = [] ->
  route_phase a router w
  = (pingInterface (arg_endpoint a) 5 ;; ret tt)
      (mkWorld (pending w)
         (trace w ++ [EvLog Error ("invalid IP address: " ++ arg_endpoint a)%string;
                      EvLog Info ("Successfully changed default route to "
                                    ++ arg_wifi_if a)%string])).
Proof.
  intros Hip. unfold route_phase. unfold bind at 1.
  rewrite replaceRoute_unparsed by exact Hip. step_log.
  rewrite <- app_assoc. reflexivity.
Qed.

Lemma route_phase_parsed (a : Args) router w :
  ParseIP (arg_endpoint a) <> [] ->
  route_phase a router w
  = match pending w with
    | [] => (Blocked, mkWorld [] (trace w ++ route_change_events a router None))
    | r :: rest =>
        (pingInterface (arg_endpoint a) 5 ;; ret tt)
          (mkWorld rest (trace w ++ route_change_events a router (Some r)))
    end.
Proof.
  intros Hip. unfold route_phase, route_change_events. unfold bind at 1.
  rewrite replaceRoute_parsed by exact Hip. cbn zeta.
  destruct (pending w) as [|r rest]; [rewrite app_nil_r; reflexivity|].
  destruct (err r) as [e|]; step_log; rewrite <- !app_assoc; reflexivity.
Qed.

Lemma route_mutations_change (a : Args) router answer :
  route_mutations (route_change_events a router answer)
  = [route_replace_argv (route_cidr (ParseIP (arg_endpoint a)) 24) router
                        (arg_wifi_if a)].
Proof.
  unfold route_change_events. cbn zeta. rewrite route_mutations_app.
  destruct answer as [r|]; [destruct (err r)|]; reflexivity.
Qed.

Lemma monitor_then_ret endpoint w1 :
  (fst ((pingInterface endpoint 5 ;; ret tt) w1) = Ret tt
   \/ fst ((pingInterface endpoint 5 ;; ret tt) w1) = Blocked)
  /\ route_mutations (trace (snd ((pingInterface endpoint 5 ;; ret tt) w1)))
     = route_mutations (trace w1).
Proof.
  unfold bind.
  pose proof (pingInterface_ret_or_blocked endpoint 5 w1) as Hout.
  pose proof (pingInterface_route_mutations endpoint 5 w1) as Hrm.
  destruct (pingInterface endpoint 5 w1) as [o w']. cbn [fst snd] in *.
  destruct Hout as [-> | ->]; cbn [fst snd ret]; auto.
Qed.

Lemma route_phase_run (a : Args) router w :
  (fst (route_phase a router w) = Ret tt \/ fst (route_phase a router w) = Blocked)
  /\ route_mutations (trace (snd (route_phase a router w)))
     = route_mutations (trace w)
       ++ match ParseIP (arg_endpoint a) with
          | [] => []
          | ip => [route_replace_argv (route_cidr ip 24) router (arg_wifi_if a)]
          end.
Proof.
  destruct (ParseIP (arg_endpoint a)) as [|x ip] eqn:Hip.
  - rewrite route_phase_unparsed by exact Hip.
    destruct (monitor_then_ret (arg_endpoint a)
                (mkWorld (pending w)
                   (trace w ++ [EvLog Error ("invalid IP address: "
                                               ++ arg_endpoint a)%string;
                                EvLog Info ("Successfully changed default route to "
                                              ++ arg_wifi_if a)%string])))
      as [Hout Hrm].
    split; [exact Hout|]. rewrite Hrm. cbn [trace].
    rewrite route_mutations_app. cbn. rewrite !app_nil_r. reflexivity.
  - rewrite route_phase_parsed by (rewrite Hip; discriminate).
    rewrite <- Hip.
    destruct (pending w) as [|r rest].
    + cbn [fst snd trace]. split; [right; reflexivity|].
      rewrite route_mutations_app, route_mutations_change. reflexivity.
    + destruct (monitor_then_ret (arg_endpoint a)
                  (mkWorld rest (trace w ++ route_change_events a router (Some r))))
        as [Hout Hrm].
      split; [exact Hout|]. rewrite Hrm. cbn [trace].
      rewrite route_mutations_app, route_mutations_change. reflexivity.
Qed.

Lemma route_mutations_polls ifwifi polls before :
  unreachable_polls ifwifi polls before -> route_mutations before = [].
Proof.
  induction 1 as [|q p route polls before _ _ _ _ IH]; [reflexivity|].
  rewrite route_mutations_app, IH. reflexivity.
Qed.

Lemma route_mutations_monitor_down a probes :
  route_mutations (monitor_down_events a probes) = [].
Proof.
  unfold monitor_down_events, pingInterface_events.
  rewrite !route_mutations_app, commands_probe_events. reflexivity.
Qed.



Lemma route_cidr_24 a1 b1 c1 d1 :
  octet a1 -> octet b1 -> octet c1 -> octet d1 ->
  route_cidr (ParseIP (dotted a1 b1 c1 d1)) 24 = (dotted a1 b1 c1 0 ++ "/24")%string.
Proof.
  intros Ha Hb Hc Hd. unfold route_cidr.
  rewrite ParseIP_dotted by assumption.
  rewrite CIDRMask_prefix by lia.
  change (mask_bytes 24) with [255; 255; 255; 0].
  rewrite Mask_v4, IP_String_v4.
  assert (H255 : forall x, octet x -> Z.land x 255 = x).
  { intros x Hx. change 255 with (Z.ones 8). rewrite Z.land_ones by lia.
    apply Z.mod_small. unfold octet in Hx. change (2 ^ 8) with 256. lia. }
  rewrite !H255 by assumption. rewrite Z.land_0_r. reflexivity.
Qed.

(** The route mutations of [main] once [connectToWiFi] has returned the
    gateway [gw] without an error and without a route mutation. *)
Lemma main_route_after_association
      (a : Args) probes rest tr gw w2 a1 b1 c1 d1 :
  first_reach 5 probes (List.length probes) ->
  connectToWiFi (arg_wifi_if a) (arg_wifi_ssid a) (arg_wifi_password a)
                (mkWorld rest (tr ++ monitor_down_events a probes))
  = (Ret (gw, None), w2) ->
  route_mutations (trace w2) = route_mutations tr ->
  arg_endpoint a = dotted a1 b1 c1 d1 ->
  octet a1 -> octet b1 -> octet c1 -> octet d1 ->
  route_mutations (trace (snd (main a (mkWorld (probes ++ rest) tr))))
  = route_mutations tr
    ++ [route_replace_argv (dotted a1 b1 c1 0 ++ "/24")%string gw (arg_wifi_if a)]
  /\ (fst (main a (mkWorld (probes ++ rest) tr)) = Ret tt
      \/ fst (main a (mkWorld (probes ++ rest) tr)) = Blocked).
Proof.
  intros Hdown Hassoc Hrm Hep Ha Hb Hc Hd.
  rewrite (main_associated a probes rest tr gw w2 Hdown Hassoc).
  match goal with
  | |- context [route_phase a gw ?w] =>
      destruct (route_phase_run a gw w) as [Hout Hroute]
  end.
  split; [|exact Hout].
  rewrite Hroute. cbn [trace]. rewrite route_mutations_app, Hrm.
  cbn [route_mutations commands filter app]. rewrite app_nil_r.
  pose proof (route_cidr_24 a1 b1 c1 d1 Ha Hb Hc Hd) as H24.
  rewrite Hep. rewrite ParseIP_dotted in * by assumption.
  unfold v4InV6Prefix in *. cbn [app] in *. rewrite H24. reflexivity.
Qed.

(** X15. End to end: with a dotted-quad endpoint [a.b.c.d], once the
    monitor has declared the path down, the join has succeeded and the
    polling has returned the gateway [gw] (observed in a route query and
    reachable, after any number of unreachable ones), the one route
    mutation of [main] is [ip route replace a.b.c.0/24 via gw dev] the WiFi
    interface, and [main] then returns or is still in the second monitor
    (or in the route command). *)
Theorem main_routes_network_via_gateway
        (a : Args) (probes : list ExecResult) (join : ExecResult)
        (polls : list ExecResult) (before : list Event) (q p : ExecResult)
        (gw : string) (rest : list ExecResult) (tr : list Event)
        (a1 b1 c1 d1 : Z) :
  first_reach 5 probes (List.length probes) ->
  err join = None ->
  unreachable_polls (arg_wifi_if a) polls before ->
  err q = None -> gateway_of q = Some gw -> reachable p = true ->
  arg_endpoint a = dotted a1 b1 c1 d1 ->
  octet a1 -> octet b1 -> octet c1 -> octet d1 ->
  let run := main a (mkWorld (probes ++ join :: polls ++ q :: p :: rest) tr) in
  route_mutations (trace (snd run))
  = route_mutations tr
    ++ [route_replace_argv (dotted a1 b1 c1 0 ++ "/24")%string gw (arg_wifi_if a)]
  /\ (fst run = Ret tt \/ fst run = Blocked).
Proof.
  intros Hdown Hj Hpolls Hq Hg Hp Hep Ha Hb Hc Hd. cbn zeta.
  eapply main_route_after_association; try eassumption.
  - rewrite connectToWiFi_joined by exact Hj.
    rewrite (polling_skips _ polls before Hpolls).
    apply (polling_reachable _ q p gw); assumption.
  - cbn [trace]. rewrite !route_mutations_app.
    rewrite route_mutations_monitor_down, (route_mutations_polls _ _ _ Hpolls).
    cbn. rewrite !app_nil_r. reflexivity.
Qed.

(** X16. When a route query command fails during the polling, [main] goes
    on as after a successful association: with a dotted-quad endpoint it
    runs the route change with the empty string as the gateway,
    [ip route replace a.b.c.0/24 via  dev] the WiFi interface, and then the
    second monitor. *)
Theorem main_routes_via_empty_gateway_after_query_failure
        (a : Args) (probes : list ExecResult) (join : ExecResult)
        (polls : list ExecResult) (before : list Event) (q : ExecResult)
        (e : string) (rest : list ExecResult) (tr : list Event)
        (a1 b1 c1 d1 : Z) :
  first_reach 5 probes (List.length probes) ->
  err join = None ->
  unreachable_polls (arg_wifi_if a) polls before ->
  err q = Some e ->
  arg_endpoint a = dotted a1 b1 c1 d1 ->
  octet a1 -> octet b1 -> octet c1 -> octet d1 ->
  let run := main a (mkWorld (probes ++ join :: polls ++ q :: rest) tr) in
  route_mutations (trace (snd run))
  = route_mutations tr
    ++ [route_replace_argv (dotted a1 b1 c1 0 ++ "/24")%string EmptyString
                           (arg_wifi_if a)]
  /\ (fst run = Ret tt \/ fst run = Blocked).
Proof.
  intros Hdown Hj Hpolls Hq Hep Ha Hb Hc Hd. cbn zeta.
  eapply main_route_after_association; try eassumption.
  - rewrite connectToWiFi_joined by exact Hj.
    rewrite (polling_skips _ polls before Hpolls).
    apply (polling_query_failed _ q e). exact Hq.
  - cbn [trace]. rewrite !route_mutations_app.
    rewrite route_mutations_monitor_down, (route_mutations_polls _ _ _ Hpolls).
    cbn. rewrite !app_nil_r. reflexivity.
Qed.
End EndToEnd.

Section Trace.
Context {RT : GoRuntime}.
Local Open Scope list_scope.

Lemma grows_ret {A} (x : A) : grows (ret x).
Proof. intros w. exists []. cbn. rewrite app_nil_r. reflexivity. Qed.

Lemma grows_emit e : grows (emit e).
Proof. intros w. exists [e]. reflexivity. Qed.

Lemma grows_exec argv : grows (CombinedOutput argv).
Proof.
  intros w. exists [EvExec argv]. unfold CombinedOutput.
  destruct (pending w); reflexivity.
Qed.

Lemma grows_exit {A} c : grows (@os_Exit A c).
Proof. intros w. exists []. cbn. rewrite app_nil_r. reflexivity. Qed.

Lemma grows_panic {A} msg : grows (@panic A msg).
Proof. intros w. exists []. cbn. rewrite app_nil_r. reflexivity. Qed.

Lemma grows_bind {A B} (m : Prog A) (k : A -> Prog B) :
  grows m -> (forall x, grows (k x)) -> grows (bind m k).
Proof.
  intros Hm Hk w. unfold bind. destruct (Hm w) as (ev1 & H1).
  destruct (m w) as [[x| | |] w1]; cbn [snd] in *; try (exists ev1; exact H1).
  destruct (Hk x w1) as (ev2 & H2). exists (ev1 ++ ev2).
  rewrite H2, H1, app_assoc. reflexivity.
Qed.

Lemma grows_for_ever {A} (body : nat -> Prog A) :
  (forall fuel, grows (body fuel)) -> grows (for_ever body).
Proof. intros H w. apply H. Qed.

Lemma grows_pingInterface endpoint retry : grows (pingInterface endpoint retry).
Proof.
  unfold pingInterface.
  apply grows_bind; [apply grows_emit|intros _].
  apply grows_bind; [apply grows_emit|intros _].
  apply grows_for_ever. intros fuel. generalize 0 at 1.
  induction fuel as [|fuel IH]; intros failures.
  - intros w. exists []. cbn. rewrite app_nil_r. reflexivity.
  - cbn [pingInterface_loop].
    apply grows_bind; [apply grows_emit|intros _].
    apply grows_bind.
    { apply grows_bind; [apply grows_exec|intros r; apply grows_ret]. }
    intros t. destruct (negb (t =? -1)); [apply IH|]. cbn zeta.
    apply grows_bind; [apply grows_emit|intros _].
    destruct (wrap_int int_size (failures + 1) >=? retry);
      [apply grows_ret|apply IH].
Qed.

Lemma grows_connectToWiFi ifwifi bssid password :
  grows (connectToWiFi ifwifi bssid password).
Proof.
  unfold connectToWiFi.
  apply grows_bind; [apply grows_exec|intros r].
  destruct (err r); [apply grows_ret|].
  apply grows_bind; [apply grows_emit|intros _].
  apply grows_for_ever. induction fuel as [|fuel IH].
  - intros w. exists []. cbn. rewrite app_nil_r. reflexivity.
  - cbn [connectToWiFi_poll].
    apply grows_bind; [apply grows_emit|intros _].
    apply grows_bind; [apply grows_exec|intros q].
    destruct (err q).
    { apply grows_bind; [apply grows_emit|intros _; apply grows_ret]. }
    apply grows_bind.
    { unfold third_token. destruct (nth_error _ 2); [apply grows_ret|apply grows_panic]. }
    intros route.
    apply grows_bind; [apply grows_emit|intros _].
    apply grows_bind.
    { apply grows_bind; [apply grows_exec|intros r'; apply grows_ret]. }
    intros t. destruct (negb (t =? -1)); [apply grows_ret|apply IH].
Qed.

Lemma grows_replaceRoute ipv4 cidrMask ifname router :
  grows (replaceRoute ipv4 cidrMask ifname router).
Proof.
  unfold replaceRoute. cbn zeta. destruct (ParseIP ipv4).
  - apply grows_bind; [apply grows_emit|intros _; apply grows_ret].
  - apply grows_bind; [apply grows_emit|intros _].
    apply grows_bind; [apply grows_emit|intros _].
    apply grows_bind; [apply grows_exec|intros r].
    destruct (err r); [|apply grows_ret].
    apply grows_bind; [apply grows_emit|intros _; apply grows_ret].
Qed.

(** X17. Whatever the command line and whatever happens afterwards, [main]
    starts by logging its configuration, before it runs any command: the
    interface, the network name, the WiFi password in clear, the endpoint,
    and a retry count that is always empty. Nothing that follows removes
    those lines from the trace. *)
Theorem main_logs_configuration_first (a : Args) (w : World) :
  exists events,
    trace (snd (main a w)) = trace w ++ startup_events a ++ events.
Proof.
  unfold main, Run.
  change (fst (GetString (flags_of a) "wifi-if")) with (arg_wifi_if a).
  change (fst (GetString (flags_of a) "wifi-ssid")) with (arg_wifi_ssid a).
  change (fst (GetString (flags_of a) "wifi-password")) with (arg_wifi_password a).
  change (fst (GetString (flags_of a) "endpoint")) with (arg_endpoint a).
  change (fst (GetString (flags_of a) "retry")) with EmptyString.
  do 7 step_log.
  match goal with
  | |- context [bind ?m ?k ?w1] =>
      assert (Hg : grows (bind m k))
  end.
  { apply grows_bind; [apply grows_pingInterface|intros _].
    apply grows_bind; [apply grows_emit|intros _].
    apply grows_bind; [apply grows_connectToWiFi|intros [router e]].
    destruct e.
    - apply grows_bind; [apply grows_emit|intros _; apply grows_exit].
    - apply grows_bind; [apply grows_emit|intros _].
      apply grows_bind; [apply grows_replaceRoute|intros _].
      apply grows_bind; [apply grows_emit|intros _].
      apply grows_bind; [apply grows_pingInterface|intros _; apply grows_ret]. }
  match goal with
  | |- context [bind ?m ?k ?w1] => destruct (Hg w1) as (events & Hev)
  end.
  exists events. rewrite Hev. cbn [trace]. unfold startup_events.
  rewrite <- !app_assoc. reflexivity.
Qed.
End Trace.

(** ** The scenarios *)

#[local] Existing Instance demo_runtime.

Ltac first_reach_by_computation :=
  split; [cbn; lia|];
  split; [vm_compute; reflexivity|];
  let m := fresh "m" in
  let Hm := fresh "Hm" in
  intros m Hm;
  repeat (destruct m as [|m]; [vm_compute; reflexivity|]);
  cbn in Hm; lia.

(** Threshold 3: two failures, a reply that resets the count, three
    failures; the monitor returns after the sixth probe and leaves the
    seventh answer. *)
Lemma pingInterface_down_witness :
  1 <= 3 <= max_int int_size
  /\ pingInterface "8.8.8.8" 3
       (start [ping_lost; ping_lost; ping_reply;
               ping_lost; ping_lost; ping_lost; ping_reply])
     = (Ret (-1),
        mkWorld [ping_reply]
          (pingInterface_events "8.8.8.8" 3
             [ping_lost; ping_lost; ping_reply; ping_lost; ping_lost; ping_lost])).
Proof.
  assert (Ht : 1 <= 3 <= max_int int_size) by (vm_compute; split; discriminate).
  split; [exact Ht|].
  apply (proj1 (pingInterface_down_iff_trailing_run "8.8.8.8" 3
                  (start [ping_lost; ping_lost; ping_reply;
                          ping_lost; ping_lost; ping_lost; ping_reply]) Ht) 6%nat).
  first_reach_by_computation.
Defined.

Lemma replaceRoute_invalid_address_witness :
  ParseIP "999.999.999.999" = []
  /\ replaceRoute "999.999.999.999" 24 "wlan0" "192.168.1.1" (start [route_replaced])
     = (Ret (Some "invalid IP address: 999.999.999.999"),
        mkWorld [route_replaced] [EvLog Error "invalid IP address: 999.999.999.999"]).
Proof.
  split; [reflexivity|].
  exact (proj1 (proj2 replaceRoute_invalid_address_no_mutation
                  "999.999.999.999" 24 "wlan0" "192.168.1.1" (start [route_replaced])
                  eq_refl)).
Defined.

Lemma replaceRoute_network_cidr_witness :
  ParseIP (dotted 8 8 8 8) = (v4InV6Prefix ++ [8; 8; 8; 8])%list
  /\ commands (trace (snd (replaceRoute "8.8.8.8" 24 "wlan0" "192.168.1.1"
                                        (start [route_replaced]))))
     = [route_replace_argv "8.8.8.0/24" "192.168.1.1" "wlan0"].
Proof.
  assert (H8 : octet 8) by (unfold octet; lia).
  split.
  - exact (proj1 replaceRoute_network_cidr 8 8 8 8 H8 H8 H8 H8).
  - apply (proj1 (proj2 replaceRoute_network_cidr) "8.8.8.8" 8 8 8 8 24 eq_refl);
      try exact H8; lia.
Defined.

Lemma replaceRoute_prefix_out_of_range_witness :
  ParseIP "8.8.8.8" <> [] /\ (33 < 0 \/ 32 < 33)
  /\ commands (trace (snd (replaceRoute "8.8.8.8" 33 "wlan0" "192.168.1.1"
                                        (start [failed "Error: inet prefix is expected"
                                                       "exit status 1"]))))
     = [route_replace_argv "<nil>/33" "192.168.1.1" "wlan0"]
  /\ fst (replaceRoute "8.8.8.8" 33 "wlan0" "192.168.1.1"
                       (start [failed "Error: inet prefix is expected"
                                      "exit status 1"]))
     = Ret (Some (replace_failed "exit status 1" "Error: inet prefix is expected")).
Proof.
  assert (Hip : ParseIP "8.8.8.8" <> []) by discriminate.
  assert (Hp : 33 < 0 \/ 32 < 33) by (right; reflexivity).
  split; [exact Hip|]. split; [exact Hp|].
  pose proof (replaceRoute_prefix_out_of_range "8.8.8.8" 33 "wlan0" "192.168.1.1"
                (start [failed "Error: inet prefix is expected" "exit status 1"])
                Hip Hp) as [Hcmd Hres].
  split; [exact Hcmd|].
  exact (Hres _ _ eq_refl).
Defined.

(** Prefix length 33: the route command is run, on [<nil>/33], and the
    error is the one of the command that the operating system rejects. *)
Lemma replaceRoute_prefix_33_runs_command :
  replaceRoute "8.8.8.8" 33 "wlan0" "192.168.1.1"
               (start [failed "Error: inet prefix is expected rather than <nil>/33."
                              "exit status 1"])
  = (Ret (Some "failed to replace route: exit status 1, output: Error: inet prefix is expected rather than <nil>/33."),
     mkWorld []
       [EvLog Info "Network address: <nil>";
        EvLog Info "Replacing default route for network <nil>/33";
        EvExec ["ip"; "route"; "replace"; "<nil>/33"; "via"; "192.168.1.1";
                "dev"; "wlan0"];
        EvLog Error "failed to replace route: exit status 1, output: Error: inet prefix is expected rather than <nil>/33."])
  /\ route_mutations
       (trace (snd (replaceRoute "8.8.8.8" 33 "wlan0" "192.168.1.1"
                      (start [failed "Error: inet prefix is expected rather than <nil>/33."
                                     "exit status 1"]))))
     = [["ip"; "route"; "replace"; "<nil>/33"; "via"; "192.168.1.1"; "dev"; "wlan0"]].
Proof. split; vm_compute; reflexivity. Qed.

(** The route query fails once; a later query would have given the route. *)
Lemma polling_stops_when_query_fails :
  gateway_of query_error = None
  /\ connectToWiFi "wlan0" "home" "secret"
       (start [joined; query_error; route_line; ping_reply])
     = (Ret (EmptyString, None),
        mkWorld [route_line; ping_reply]
          [EvExec (nmcli_argv "wlan0" "home" "secret"); EvLog Info (output joined);
           EvSleep; EvExec (query_argv "wlan0");
           EvLog Error (query_failed_msg "exit status 1")]).
Proof. split; vm_compute; reflexivity. Qed.

(** The value returned without an error was in no query output and was
    not pinged: the commands run are the join and the failed query. *)
Lemma connectToWiFi_returns_unobserved_gateway :
  let res := connectToWiFi "wlan0" "home" "secret"
               (start [joined; query_error]) in
  fst res = Ret (EmptyString, None)
  /\ commands (trace (snd res))
     = [nmcli_argv "wlan0" "home" "secret"; query_argv "wlan0"]
  /\ ~ observed_and_probed "wlan0" EmptyString [query_error]
                           (pending (snd res))
                           [EvSleep; EvExec (query_argv "wlan0");
                            EvLog Error (query_failed_msg "exit status 1")].
Proof.
  cbn zeta. split; [vm_compute; reflexivity|].
  split; [vm_compute; reflexivity|].
  intros (polls & before & q & p & _ & Hans & _).
  apply (f_equal (@List.length _)) in Hans.
  rewrite length_app in Hans. cbn [List.length] in Hans. lia.
Qed.

Lemma polling_retries_witness :
  for_ever (fun fuel => connectToWiFi_poll fuel "wlan0")
           (start [route_line; ping_lost; route_line; ping_reply])
  = for_ever (fun fuel => connectToWiFi_poll fuel "wlan0")
             (mkWorld [route_line; ping_reply] (poll_events "wlan0" "192.168.1.1"))
  /\ for_ever (fun fuel => connectToWiFi_poll fuel "wlan0")
              (start [query_error; route_line; ping_reply])
     = (Ret (EmptyString, None),
        mkWorld [route_line; ping_reply]
                [EvSleep; EvExec (query_argv "wlan0");
                 EvLog Error (query_failed_msg "exit status 1")]).
Proof.
  split.
  - exact (proj1 (proj1 (polling_retries_unreachable_gateway "wlan0" route_line
                           [ping_lost; route_line; ping_reply] [])
                    ping_lost [route_line; ping_reply] "192.168.1.1"
                    eq_refl eq_refl eq_refl eq_refl)).
  - exact (proj2 (polling_retries_unreachable_gateway "wlan0"
                    query_error [route_line; ping_reply] [])
                 "exit status 1" eq_refl).
Defined.

(** The gateway is observed at once and answers the third ping: the third
    poll returns it. *)
Lemma connectToWiFi_success_witness :
  (exists join polled events,
     [joined; route_line; ping_reply] = join :: polled /\ err join = None
     /\ [EvExec (nmcli_argv "wlan0" "home" "secret"); EvLog Info (output joined);
         EvSleep; EvExec (query_argv "wlan0");
         EvLog Info "Pinging default router: 192.168.1.1";
         EvExec (ping_argv "192.168.1.1")]
        = ([] ++ [EvExec (nmcli_argv "wlan0" "home" "secret");
                  EvLog Info (output join)] ++ events)%list
     /\ (observed_and_probed "wlan0" "192.168.1.1" polled [] events
         \/ ("192.168.1.1" = EmptyString /\ query_gave_up "wlan0" polled [] events)))
  /\ connectToWiFi "wlan0" "home" "secret"
    (start [joined; route_line; ping_lost; route_line; ping_lost;
            route_line; ping_reply])
  = (Ret ("192.168.1.1", None),
     mkWorld []
       ([EvExec (nmcli_argv "wlan0" "home" "secret"); EvLog Info (output joined)]
          ++ (poll_events "wlan0" "192.168.1.1"
                ++ poll_events "wlan0" "192.168.1.1" ++ [])
          ++ poll_events "wlan0" "192.168.1.1")%list).
Proof.
  split.
  - apply (proj1 (connectToWiFi_success_characterised "wlan0" "home" "secret" [])
                 [joined; route_line; ping_reply] "192.168.1.1"
                 (mkWorld [] [EvExec (nmcli_argv "wlan0" "home" "secret");
                              EvLog Info (output joined); EvSleep; EvExec (query_argv "wlan0");
                              EvLog Info "Pinging default router: 192.168.1.1";
                              EvExec (ping_argv "192.168.1.1")])).
    vm_compute. reflexivity.
  - apply (proj2 (connectToWiFi_success_characterised "wlan0" "home" "secret" [])
                 joined [route_line; ping_lost; route_line; ping_lost]
                 _ route_line ping_reply "192.168.1.1" []); try reflexivity.
    repeat (econstructor; try reflexivity).
Defined.

Lemma gateway_extraction_witness :
  (List.length (Split EmptyString space) < 3)%nat
  /\ (exists route,
        nth_error (Split (output route_line) space) 2 = Some route
        /\ third_token (output route_line) (start []) = (Ret route, start []))
  /\ third_token EmptyString (start [])
     = (Panicked "runtime error: index out of range [2] with length 1", start [])
  /\ for_ever (fun fuel => MainGo.connectToWiFi_poll fuel "wlan0")
              (start [no_route; route_line; ping_reply])
     = (Panicked "runtime error: index out of range [2] with length 1",
        mkWorld [route_line; ping_reply] [EvSleep; EvExec (query_argv "wlan0")])
  /\ for_ever (fun fuel => connectToWiFi_poll fuel "wlan0")
              (start [no_route; route_line; ping_reply])
     = (Panicked "runtime error: index out of range [2] with length 1",
        mkWorld [route_line; ping_reply] [EvSleep; EvExec (query_argv "wlan0")]).
Proof.
  assert (H : (List.length (Split EmptyString space) < 3)%nat) by (cbn; lia).
  assert (H3 : (3 <= List.length (Split (output route_line) space))%nat)
    by (cbn; lia).
  destruct gateway_extraction_panics_below_three_tokens
    as (Htotal & Hpanic & Hpoll & Hiwconfig & _).
  split; [exact H|].
  split; [exact (Htotal (output route_line) (start []) H3)|].
  split; [exact (Hpanic EmptyString (start []) H)|].
  split.
  - exact (Hiwconfig "wlan0" no_route [route_line; ping_reply] [] eq_refl H).
  - exact (Hpoll "wlan0" no_route [route_line; ping_reply] [] eq_refl H).
Defined.

Lemma join_failure_witness :
  main (demo_args "8.8.8.8" None)
       (start (repeat ping_lost 5
               ++ [failed "Error: Secrets were required, but not provided." "exit status 4";
                   route_line; ping_reply])%list)
  = (Exited 1,
     mkWorld [route_line; ping_reply]
       (startup_events (demo_args "8.8.8.8" None)
           ++ pingInterface_events "8.8.8.8" 5 (repeat ping_lost 5)
           ++ [EvLog Error "Ping toward 8.8.8.8 endpoint failed";
               EvExec (nmcli_argv "wlan0" "home" "secret");
               EvLog Error "Error connecting to WiFi: exit status 4"])%list).
Proof.
  apply (proj1 (proj2 (join_failure_exits_without_routing
                         (demo_args "8.8.8.8" None) (repeat ping_lost 5)
                         (failed "Error: Secrets were required, but not provided."
                                 "exit status 4")
                         "exit status 4" [route_line; ping_reply] []
                         ltac:(first_reach_by_computation) eq_refl))).
Defined.

(** The endpoint is no address, so that the route manager fails on
    validation; then a proper endpoint and an operating system that rejects
    the route change. Both times [main] runs the post-failover monitor and
    returns. *)
Lemma main_goes_on_witness :
  let w := start (repeat ping_lost 5 ++ [joined; route_line; ping_reply]
                  ++ repeat ping_lost 5)%list in
  let w' := start (repeat ping_lost 5
                   ++ [joined; route_line; ping_reply;
                       failed "RTNETLINK answers: Operation not permitted"
                              "exit status 2"]
                   ++ repeat ping_lost 5)%list in
  fst (main (demo_args "999.999.999.999" None) w) = Ret tt
  /\ (exit_status (fst (main (demo_args "999.999.999.999" None) w)) = Some 0
      \/ exit_status (fst (main (demo_args "999.999.999.999" None) w)) = None)
  /\ route_mutations (trace (snd (main (demo_args "999.999.999.999" None) w))) = []
  /\ pending (snd (main (demo_args "999.999.999.999" None) w)) = []
  /\ fst (main (demo_args "8.8.8.8" None) w') = Ret tt
  /\ (exit_status (fst (main (demo_args "8.8.8.8" None) w')) = Some 0
      \/ exit_status (fst (main (demo_args "8.8.8.8" None) w')) = None)
  /\ pending (snd (main (demo_args "8.8.8.8" None) w')) = [].
Proof.
  cbn zeta.
  assert (Hdown : first_reach 5 (repeat ping_lost 5)
                              (List.length (repeat ping_lost 5)))
    by first_reach_by_computation.
  split; [vm_compute; reflexivity|].
  split; [|split; [vm_compute; reflexivity|]].
  { refine (proj2 (main_goes_on_after_route_failure
                     (demo_args "999.999.999.999" None) (repeat ping_lost 5)
                     ([joined; route_line; ping_reply] ++ repeat ping_lost 5)%list []
                     "192.168.1.1" "invalid IP address: 999.999.999.999"
                     (mkWorld (repeat ping_lost 5) _) (mkWorld (repeat ping_lost 5) _)
                     Hdown _ _)).
    - vm_compute. reflexivity.
    - vm_compute. reflexivity. }
  split; [vm_compute; reflexivity|].
  split; [vm_compute; reflexivity|].
  split; [|vm_compute; reflexivity].
  refine (proj2 (main_goes_on_after_route_failure
                   (demo_args "8.8.8.8" None) (repeat ping_lost 5)
                   ([joined; route_line; ping_reply;
                     failed "RTNETLINK answers: Operation not permitted"
                            "exit status 2"] ++ repeat ping_lost 5)%list []
                   "192.168.1.1"
                   "failed to replace route: exit status 2, output: RTNETLINK answers: Operation not permitted"
                   (mkWorld (failed "RTNETLINK answers: Operation not permitted"
                                    "exit status 2" :: repeat ping_lost 5) _)
                   (mkWorld (repeat ping_lost 5) _)
                   Hdown _ _)).
  - vm_compute. reflexivity.
  - vm_compute. reflexivity.
Defined.

(** ** The scenarios of the further properties *)

Lemma pingInterface_low_threshold_witness :
  0 <= 1
  /\ pingInterface "8.8.8.8" 0
       (mkWorld ([ping_reply; ping_reply] ++ ping_lost :: [ping_reply]) [])
     = (Ret (-1),
        mkWorld [ping_reply]
          ([] ++ [EvLog Info "Pinging endpoint 8.8.8.8"; EvNotify]
              ++ flat_map (fun _ => [EvSleep; EvExec (ping_argv "8.8.8.8")])
                          [ping_reply; ping_reply]
              ++ [EvSleep; EvExec (ping_argv "8.8.8.8");
                  EvLog Warn (failed_to_ping "8.8.8.8" 1 0)])%list).
Proof.
  assert (H : 0 <= 1) by lia. split; [exact H|].
  apply (pingInterface_low_threshold "8.8.8.8" 0 [ping_reply; ping_reply]
           ping_lost [ping_reply] [] H); vm_compute; reflexivity.
Defined.

Lemma route_cidr_idempotent_witness :
  octet 192 /\ octet 168 /\ octet 17 /\ octet 5 /\ 0 <= 20 <= 32
  /\ route_cidr (ParseIP (dotted 192 168 17 5)) 20 = "192.168.16.0/20"
  /\ route_cidr (ParseIP (IP_String (Mask (ParseIP (dotted 192 168 17 5))
                                          (CIDRMask 20 32)))) 20
     = route_cidr (ParseIP (dotted 192 168 17 5)) 20.
Proof.
  assert (H1 : octet 192) by (unfold octet; lia).
  assert (H2 : octet 168) by (unfold octet; lia).
  assert (H3 : octet 17) by (unfold octet; lia).
  assert (H4 : octet 5) by (unfold octet; lia).
  assert (Hp : 0 <= 20 <= 32) by lia.
  do 5 (split; [assumption|]). split; [vm_compute; reflexivity|].
  exact (route_cidr_idempotent 192 168 17 5 20 H1 H2 H3 H4 Hp).
Defined.

Lemma route_cidr_prefix_witness :
  octet 10 /\ octet 1 /\ octet 2 /\ octet 3
  /\ route_cidr (ParseIP (dotted 10 1 2 3)) 0 = "0.0.0.0/0"
  /\ route_cidr (ParseIP (dotted 10 1 2 3)) 24 = (dotted 10 1 2 0 ++ "/24")
  /\ route_cidr (ParseIP (dotted 10 1 2 3)) 32 = (dotted 10 1 2 3 ++ "/32").
Proof.
  assert (H1 : octet 10) by (unfold octet; lia).
  assert (H2 : octet 1) by (unfold octet; lia).
  assert (H3 : octet 2) by (unfold octet; lia).
  assert (H4 : octet 3) by (unfold octet; lia).
  do 4 (split; [assumption|]).
  exact (route_cidr_prefix_0_24_32 10 1 2 3 H1 H2 H3 H4).
Defined.

Lemma replaceRoute_ipv6_endpoint_witness :
  List.length (@ParseIP demo_runtime_v6 "2001:db8::1") = 16%nat
  /\ commands (trace (snd (@replaceRoute demo_runtime_v6 "2001:db8::1" 24 "wlan0"
                                         "192.168.1.1" (start [route_replaced]))))
     = [route_replace_argv "<nil>/24" "192.168.1.1" "wlan0"].
Proof.
  split; [reflexivity|].
  exact (@replaceRoute_ipv6_endpoint demo_runtime_v6 "2001:db8::1" 24 "wlan0"
           "192.168.1.1" (start [route_replaced]) eq_refl eq_refl).
Defined.

Lemma replaceRoute_leading_zero_witness :
  addr_kind "08.8.8.8" <> KindV6
  /\ ((exists a b c d,
         octet a /\ octet b /\ octet c /\ octet d
         /\ "08.8.8.8" = dotted a b c d
         /\ ParseIP "08.8.8.8" = (v4InV6Prefix ++ [a; b; c; d])%list)
      \/ replaceRoute "08.8.8.8" 24 "wlan0" "192.168.1.1" (start [route_replaced])
         = (Ret (Some "invalid IP address: 08.8.8.8"),
            mkWorld [route_replaced] [EvLog Error "invalid IP address: 08.8.8.8"])).
Proof.
  assert (H : addr_kind "08.8.8.8" <> KindV6) by discriminate.
  split; [exact H|].
  exact (replaceRoute_takes_dotted_quads_only "08.8.8.8" 24 "wlan0" "192.168.1.1"
           (start [route_replaced]) H).
Defined.

Lemma pingIP_time_text_witness :
  In "time=12.3" (Split reply_line space)
  /\ TrimSuffix (TrimPrefix "time=12.3" "time=") " ms" = "12.3".
Proof.
  assert (H : In "time=12.3" (Split reply_line space))
    by (vm_compute; do 6 right; left; reflexivity).
  split; [exact H|].
  exact (pingIP_time_text reply_line "time=12.3" H).
Defined.

Lemma pingIP_reachable_witness :
  pingIP_result "1 received" ping_reply = 12 /\ 12 <> -1
  /\ err ping_reply = None
  /\ Contains (output ping_reply) "1 received" = true
  /\ exists line part,
       In line (Split (output ping_reply) newline) /\ In part (Split line space)
       /\ HasPrefix part "time=" = true
       /\ ParseFloat_int (TrimPrefix part "time=") = Some 12.
Proof.
  assert (H : pingIP_result "1 received" ping_reply = 12) by (vm_compute; reflexivity).
  assert (Hv : 12 <> -1) by discriminate.
  split; [exact H|]. split; [exact Hv|].
  exact (pingIP_reachable_evidence "1 received" ping_reply 12 H Hv).
Defined.

Lemma gateway_text_witness :
  has_char space "default" = false /\ has_char space "via" = false
  /\ has_char space "192.168.1.1" = false
  /\ third_token "default via 192.168.1.1 proto dhcp metric 600 " (start [])
     = (Ret "192.168.1.1", start [])
  /\ third_token "default via 192.168.1.1" (start []) = (Ret "192.168.1.1", start []).
Proof.
  destruct (gateway_is_text_after_second_space "default" "via" "192.168.1.1"
              eq_refl eq_refl eq_refl) as (Hmid & Hend & _).
  do 3 (split; [reflexivity|]). split.
  - exact (Hmid "proto dhcp metric 600 " (start [])).
  - exact (Hend (start [])).
Defined.

Lemma main_no_failover_witness :
  main (demo_args "8.8.8.8" None)
       (mkWorld [ping_lost; ping_lost; ping_reply; ping_lost; ping_lost] [])
  = (Blocked,
     mkWorld []
       ([] ++ startup_events (demo_args "8.8.8.8" None)
           ++ pingInterface_events "8.8.8.8" 5
                [ping_lost; ping_lost; ping_reply; ping_lost; ping_lost]
           ++ [EvSleep; EvExec (ping_argv "8.8.8.8")])%list).
Proof.
  apply (main_no_failover_below_five_failures (demo_args "8.8.8.8" None)
           [ping_lost; ping_lost; ping_reply; ping_lost; ping_lost] []).
  intros n (Hle & Heq & _).
  do 6 (destruct n as [|n]; [vm_compute in Heq; discriminate Heq|]).
  cbn in Hle. lia.
Defined.

Lemma connectToWiFi_keeps_polling_witness :
  connectToWiFi "wlan0" "home" "secret"
    (mkWorld (joined :: [route_line; ping_lost; route_line; ping_lost]) [])
  = (Blocked,
     mkWorld []
       ([] ++ [EvExec (nmcli_argv "wlan0" "home" "secret"); EvLog Info (output joined)]
           ++ (poll_events "wlan0" "192.168.1.1"
                 ++ poll_events "wlan0" "192.168.1.1" ++ [])
           ++ [EvSleep; EvExec (query_argv "wlan0")])%list).
Proof.
  apply (connectToWiFi_keeps_polling "wlan0" "home" "secret" joined
           [route_line; ping_lost; route_line; ping_lost]); [reflexivity|].
  repeat (econstructor; try reflexivity).
Defined.


Lemma MainGo_connectToWiFi_setup_witness :
  MainGo.connectToWiFi "wlan0" "home" "secret"
    (mkWorld [no_route; failed "Error for wireless request" "exit status 255";
              no_route; route_line] [])
  = (Ret (Some "exit status 255"),
     mkWorld [no_route; route_line]
       ([] ++ [EvExec ["iwconfig"; "wlan0"; "essid"; "home"];
               EvLog Info (output no_route);
               EvExec ["iwconfig"; "wlan0"; "key"; "secret"]])%list)
  /\ exists done r,
       [no_route; failed "Error for wireless request" "exit status 255";
        no_route; route_line]
       = (done ++ r :: [no_route; route_line])%list
       /\ (List.length done < 3)%nat
       /\ Forall (fun x => err x = None) done
       /\ err r = Some "exit status 255".
Proof.
  destruct (MainGo_connectToWiFi_setup "wlan0" "home" "secret" [])
    as (_ & Hkey & _ & _ & Hconv).
  assert (Hrun := Hkey no_route (failed "Error for wireless request" "exit status 255")
                    [no_route; route_line] "exit status 255" eq_refl eq_refl).
  split; [exact Hrun|].
  exact (Hconv _ _ _ Hrun).
Defined.


Lemma main_routes_witness :
  route_mutations
    (trace (snd (main (demo_args "8.8.8.8" None)
                   (mkWorld (repeat ping_lost 5
                             ++ joined :: [route_line; ping_lost]
                             ++ route_line :: ping_reply
                             :: [route_replaced; ping_reply])%list []))))
  = ([] ++ [route_replace_argv (dotted 8 8 8 0 ++ "/24") "192.168.1.1" "wlan0"])%list.
Proof.
  assert (H8 : octet 8) by (unfold octet; lia).
  refine (proj1 (main_routes_network_via_gateway (demo_args "8.8.8.8" None)
                   (repeat ping_lost 5) joined [route_line; ping_lost] _
                   route_line ping_reply "192.168.1.1" [route_replaced; ping_reply] []
                   8 8 8 8 _ eq_refl _ eq_refl eq_refl _ eq_refl H8 H8 H8 H8)).
  - first_reach_by_computation.
  - repeat (econstructor; try reflexivity).
  - vm_compute. reflexivity.
Defined.

Lemma main_empty_gateway_witness :
  route_mutations
    (trace (snd (main (demo_args "8.8.8.8" None)
                   (mkWorld (repeat ping_lost 5
                             ++ joined :: []
                             ++ query_error :: [route_replaced; ping_reply])%list []))))
  = ([] ++ [route_replace_argv (dotted 8 8 8 0 ++ "/24") EmptyString "wlan0"])%list.
Proof.
  assert (H8 : octet 8) by (unfold octet; lia).
  refine (proj1 (main_routes_via_empty_gateway_after_query_failure
                   (demo_args "8.8.8.8" None)
                   (repeat ping_lost 5) joined [] []
                   query_error "exit status 1" [route_replaced; ping_reply] []
                   8 8 8 8 _ eq_refl _ eq_refl eq_refl H8 H8 H8 H8)).
  - first_reach_by_computation.
  - constructor.
Defined.
